(** * webexec-lite: request dispatch, external handlers, directory listing

    A shallow embedding of the Go sources of webexec-lite and the
    properties its specification states about them.

    The embedded revision is the one that delegates directory listings to
    [RenderDirList] and builds the CGI environment (the [main] package made
    of the dispatcher, [logutil.go] and the directory-listing file).  The
    older revision kept in [main.go] differs in three places; it is
    embedded in [Module Legacy] so that the differences are on record.

    Conventions.
    - Go [string] and [[]byte] are both [string] (a sequence of bytes).
    - Go [int] is [Z]; no arithmetic here can overflow.
    - The operating system and the Go standard library are a record
      [World] of oracles; the program never changes what they answer
      within one request.
    - Every function returns the list of [Event]s it performed, in program
      order, next to its result.  Writes to the response go to the writer
      value that is threaded through. *)

From stdpp Require Import base strings list gmap pretty.
From Stdlib Require Import ZArith String Ascii Sorting.Sorted Sorting.Permutation.

Local Open Scope Z_scope.
Local Open Scope string_scope.
Local Open Scope list_scope.

(** ** Strings: the pieces of [strings], [strconv], [fmt] and
       [path/filepath] the program calls *)

Module Strings.

(** [strings.ToLower] / [strings.ToUpper] on bytes.  Go maps Unicode
    letters; the model maps the ASCII letters and leaves every other
    byte alone, which is what Go does on ASCII input (header names and
    the extensions in the handler table). *)
Definition lower_ascii (c : ascii) : ascii :=
  let n := N_of_ascii c in
  if ((65 <=? n) && (n <=? 90))%N then ascii_of_N (n + 32) else c.

Definition upper_ascii (c : ascii) : ascii :=
  let n := N_of_ascii c in
  if ((97 <=? n) && (n <=? 122))%N then ascii_of_N (n - 32) else c.

Fixpoint map_bytes (f : ascii → ascii) (s : string) : string :=
  match s with
  | EmptyString => EmptyString
  | String c s' => String (f c) (map_bytes f s')
  end.

Definition ToLower : string → string := map_bytes lower_ascii.
Definition ToUpper : string → string := map_bytes upper_ascii.

(** [strings.ReplaceAll s old new] for a non-empty [old] (both call
    sites pass a literal): scan left to right, replace each match and
    continue after it.  [skip] counts the bytes of a match still to be
    dropped. *)
Fixpoint replace_from (old new : string) (skip : nat) (s : string) : string :=
  match s with
  | EmptyString => EmptyString
  | String c s' =>
      match skip with
      | S k => replace_from old new k s'
      | O =>
          if String.prefix old s
          then new +:+ replace_from old new (Nat.pred (String.length old)) s'
          else String c (replace_from old new O s')
      end
  end.

Definition ReplaceAll (s old new : string) : string :=
  replace_from old new O s.

(** [strings.Join]. *)
Definition Join (elems : list string) (sep : string) : string :=
  String.concat sep elems.

(** [strconv.Itoa] and the [%d] verb. *)
Definition Itoa (i : Z) : string := pretty i.

(** The [%v] verb on a [[]string]. *)
Definition fmt_v (l : list string) : string :=
  "[" +:+ Join l " " +:+ "]".

(** [filepath.Ext]: scan from the end up to the last separator; the
    extension starts at the last dot of the last element. *)
Fixpoint ext_scan (rev_path : list ascii) (acc : string) : string :=
  match rev_path with
  | [] => ""
  | c :: t =>
      if Ascii.eqb c "/" then ""
      else if Ascii.eqb c "." then String c acc
      else ext_scan t (String c acc)
  end.

Definition Ext (path : string) : string :=
  ext_scan (rev (list_ascii_of_string path)) "".

(** [s[:strings.LastIndex(s, ":")]] when there is a colon, [s]
    otherwise (the remote host of the access log). *)
Fixpoint drop_to_colon (rev_s : list ascii) : option (list ascii) :=
  match rev_s with
  | [] => None
  | c :: t => if Ascii.eqb c ":" then Some t else drop_to_colon t
  end.

Definition before_last_colon (s : string) : string :=
  match drop_to_colon (rev (list_ascii_of_string s)) with
  | Some t => string_of_list_ascii (rev t)
  | None => s
  end.

Definition len (s : string) : Z := Z.of_nat (String.length s).

End Strings.

(** ** Data model *)

(** [os.FileInfo]: what [Stat] and [DirEntry.Info] return. *)
Record FileInfo := mkFileInfo {
  fi_IsDir : bool;
  fi_Mode : Z;
  fi_Size : Z;
  fi_ModTime : Z
}.

(** [os.DirEntry]; [de_Info] is [None] when [Info()] returns an error
    (the file vanished after the directory was read). *)
Record DirEntry := mkDirEntry {
  de_Name : string;
  de_IsDir : bool;
  de_Info : option FileInfo
}.

(** [*http.Request], the fields the program reads.  [Header] lists the
    entries of the header map in the order the [range] loop visits them
    (Go leaves that order open); names are in canonical form and
    distinct. *)
Record Request := mkRequest {
  Method : string;
  URL_Path : string;
  URL_RawQuery : string;
  RequestURI : string;
  Proto : string;
  Host : string;
  RemoteAddr : string;
  Header : list (string * list string);
  Body : string
}.

(** [http.Header.Get] on the request headers, for a canonical [key]:
    the first value, or the empty string. *)
Fixpoint header_lookup (h : list (string * list string)) (key : string)
  : option (list string) :=
  match h with
  | [] => None
  | (k, vs) :: rest => if String.eqb k key then Some vs else header_lookup rest key
  end.

Definition Header_Get (h : list (string * list string)) (key : string) : string :=
  match header_lookup h key with
  | Some (v :: _) => v
  | _ => ""
  end.

Record HandlerConfig := mkHandler {
  Command : string;
  Args : list string
}.

Record ErrorPages := mkErrorPages {
  NotFound : string;
  Internal : string
}.

Record Config := mkConfig {
  HomeDir : string;
  Port : string;
  Pages : ErrorPages;
  DefaultIndexes : list string;
  Handlers : gmap string HandlerConfig;
  AccessLog : string;
  ErrorLog : string;
  HandlerLog : string
}.

(** [fileInfo] of the directory listing. *)
Record fileInfo := mkInfo {
  Name : string;
  IsDir : bool;
  Size : Z;
  ModTime : string
}.

(** A command as handed to [os/exec]. *)
Record Cmd := mkCmd {
  cmd_Path : string;
  cmd_Args : list string;
  cmd_Env : list string;
  cmd_Stdin : string
}.

(** How a child process ended. *)
Inductive ProcExit :=
| Exited (code : Z)
| StartFailed (msg : string).

(** What running a command yields: its standard output alone (for
    [Cmd.Output]), standard output and standard error interleaved (for
    [Cmd.CombinedOutput]), and how it ended. *)
Record ProcResult := mkProc {
  pr_stdout : string;
  pr_combined : string;
  pr_exit : ProcExit
}.

(** The [error] of [Output]/[CombinedOutput]: [nil] exactly when the
    process started and exited with code 0. *)
Definition proc_err (p : ProcResult) : option string :=
  match pr_exit p with
  | Exited 0 => None
  | Exited c => Some ("exit status " +:+ Strings.Itoa c)
  | StartFailed msg => Some msg
  end.

(** The calls a library routine makes on the [http.ResponseWriter] it is
    given. *)
Inductive WriterOp :=
| OpSetHeader (key value : string)
| OpWriteHeader (code : Z)
| OpWrite (data : string).

(** The values bound when the listing template is executed. *)
Record DirData := mkDirData {
  dd_Path : string;
  dd_Files : list fileInfo;
  dd_Prefix : string
}.

(** The three log sinks. *)
Inductive Sink := AccessSink | ErrorSink | HandlerSink.

#[global] Instance Sink_eq_dec : EqDecision Sink.
Proof. solve_decision. Defined.

(** What a request does to the outside, apart from writing the response. *)
Inductive Event :=
| EvStat (path : string)
| EvReadFile (path : string)
| EvReadDir (path : string)
| EvInfo (name : string)
| EvServeFile (path : string)
| EvExec (c : Cmd)
| EvLog (s : Sink) (line : string).

(** Operating system and standard library. *)
Record World := mkWorld {
  os_Stat : string → option FileInfo;
  os_ReadFile : string → option string;
  os_ReadDir : string → option (list DirEntry);
  os_Environ : list string;
  filepath_IsAbs : string → bool;
  filepath_Abs : string → option string;
  filepath_Join : string → string → string;
  net_SplitHostPort : string → option (string * string);
  url_RequestURI : Request → string;
  time_Now : string → string;
  time_Format : string → Z → string;
  exec_Run : Cmd → ProcResult;
  http_ServeFile : Request → string → list WriterOp;
  template_Parse : string → option (DirData → string);
  template_URLQueryEscaper : string → string;
  esc_rcdata : string → string;
  esc_html : string → string;
  esc_url_start : string → string;
  esc_url_part : string → string
}.

(** ** The response writer *)

(** [http.ResponseWriter]: the calls the program and the library make on
    it.  [Write] returns the writer and the byte count [n]; no caller
    looks at its error. *)
Class ResponseWriter (Wr : Type) := {
  HeaderGet : Wr → string → string;
  HeaderSet : string → string → Wr → Wr;
  WriteHeader : Z → Wr → Wr;
  Write : string → Wr → Wr * Z
}.

(** The server's own writer, as the client sees it: the header map, the
    status line once it is out (with the headers that went with it) and
    the body bytes. *)
Record Conn := mkConn {
  c_header : gmap string (list string);
  c_wrote : option (Z * gmap string (list string));
  c_body : string
}.

Definition fresh_conn : Conn := mkConn ∅ None "".

(** [bodyAllowedForStatus] of net/http. *)
Definition bodyAllowedForStatus (status : Z) : bool :=
  if ((100 <=? status) && (status <=? 199))%Z then false
  else if (status =? 204)%Z then false
  else if (status =? 304)%Z then false
  else true.

(** Only the first [WriteHeader] counts. *)
Definition conn_WriteHeader (code : Z) (c : Conn) : Conn :=
  match c_wrote c with
  | Some _ => c
  | None => mkConn (c_header c) (Some (code, c_header c)) (c_body c)
  end.

(** A [Write] before any [WriteHeader] sends status 200 first. *)
Definition conn_Write (data : string) (c : Conn) : Conn * Z :=
  let c1 := conn_WriteHeader 200 c in
  match c_wrote c1 with
  | Some (status, _) =>
      if bodyAllowedForStatus status
      then (mkConn (c_header c1) (c_wrote c1) (c_body c1 +:+ data), Strings.len data)
      else (c1, 0)
  | None => (c1, 0)
  end.

Definition conn_HeaderGet (c : Conn) (key : string) : string :=
  match c_header c !! key with
  | Some (v :: _) => v
  | _ => ""
  end.

Definition conn_HeaderSet (key value : string) (c : Conn) : Conn :=
  mkConn (<[key := [value]]> (c_header c)) (c_wrote c) (c_body c).

#[global] Instance Conn_writer : ResponseWriter Conn := {
  HeaderGet := conn_HeaderGet;
  HeaderSet := conn_HeaderSet;
  WriteHeader := conn_WriteHeader;
  Write := conn_Write
}.

(** The status the client receives: the one written, or 200 when the
    handler returns without writing. *)
Definition conn_status (c : Conn) : Z :=
  match c_wrote c with
  | Some (status, _) => status
  | None => 200
  end.

(** The headers the client receives. *)
Definition conn_sent_header (c : Conn) : gmap string (list string) :=
  match c_wrote c with
  | Some (_, h) => h
  | None => c_header c
  end.

(** [StatusWriter] of logutil.go: the embedded writer, the last status
    set and the bytes written so far. *)
Record StatusWriter (Wr : Type) := mkStatusWriter {
  sw_ResponseWriter : Wr;
  Status : Z;
  Bytes : Z
}.
Arguments mkStatusWriter {Wr} _ _ _.
Arguments sw_ResponseWriter {Wr} _.
Arguments Status {Wr} _.
Arguments Bytes {Wr} _.

Section StatusWriterMethods.
Context {Wr : Type} `{ResponseWriter Wr}.

Definition StatusWriter_WriteHeader (code : Z) (w : StatusWriter Wr)
  : StatusWriter Wr :=
  mkStatusWriter (WriteHeader code (sw_ResponseWriter w)) code (Bytes w).

Definition StatusWriter_Write (b : string) (w : StatusWriter Wr)
  : StatusWriter Wr * Z :=
  let '(inner, n) := Write b (sw_ResponseWriter w) in
  (mkStatusWriter inner (Status w) (Bytes w + n), n).

(** [Header()] is promoted from the embedded writer. *)
Definition StatusWriter_HeaderGet (w : StatusWriter Wr) (key : string) : string :=
  HeaderGet (sw_ResponseWriter w) key.

Definition StatusWriter_HeaderSet (key value : string) (w : StatusWriter Wr)
  : StatusWriter Wr :=
  mkStatusWriter (HeaderSet key value (sw_ResponseWriter w)) (Status w) (Bytes w).

#[global] Instance StatusWriter_writer : ResponseWriter (StatusWriter Wr) := {
  HeaderGet := StatusWriter_HeaderGet;
  HeaderSet := StatusWriter_HeaderSet;
  WriteHeader := StatusWriter_WriteHeader;
  Write := StatusWriter_Write
}.
End StatusWriterMethods.

(** A library routine running against a writer. *)
Definition apply_op {Wr} `{ResponseWriter Wr} (w : Wr) (op : WriterOp) : Wr :=
  match op with
  | OpSetHeader k v => HeaderSet k v w
  | OpWriteHeader code => WriteHeader code w
  | OpWrite data => fst (Write data w)
  end.

Definition apply_ops {Wr} `{ResponseWriter Wr} (ops : list WriterOp) (w : Wr) : Wr :=
  fold_left apply_op ops w.

(** ** Events *)

(** The lines written to a sink, in order. *)
Fixpoint log_lines (s : Sink) (evs : list Event) : list string :=
  match evs with
  | [] => []
  | EvLog s' line :: rest =>
      if bool_decide (s = s') then line :: log_lines s rest else log_lines s rest
  | _ :: rest => log_lines s rest
  end.

(** The commands run, in order. *)
Fixpoint execs (evs : list Event) : list Cmd :=
  match evs with
  | [] => []
  | EvExec c :: rest => c :: execs rest
  | _ :: rest => execs rest
  end.

(** The paths probed with [os.Stat], in order. *)
Fixpoint stats (evs : list Event) : list string :=
  match evs with
  | [] => []
  | EvStat p :: rest => p :: stats rest
  | _ :: rest => stats rest
  end.

(** The files read with [ReadFile], in order. *)
Fixpoint reads (evs : list Event) : list string :=
  match evs with
  | [] => []
  | EvReadFile p :: rest => p :: reads rest
  | _ :: rest => reads rest
  end.

(** How a call ends: it returns, or it panics (a nil dereference); either
    way with the writer and the events so far. *)
Inductive Outcome (Wr : Type) :=
| Returned (w : Wr) (evs : list Event)
| Panicked (w : Wr) (evs : list Event).
Arguments Returned {Wr} _ _.
Arguments Panicked {Wr} _ _.

Definition outcome_events {Wr} (o : Outcome Wr) : list Event :=
  match o with Returned _ evs | Panicked _ evs => evs end.

Definition outcome_writer {Wr} (o : Outcome Wr) : Wr :=
  match o with Returned w _ | Panicked w _ => w end.

Definition returned {Wr} (o : Outcome Wr) : bool :=
  match o with Returned _ _ => true | Panicked _ _ => false end.

(** ** The program *)

(** The double quote, for the formats that print one. *)
Definition dq : string := String (ascii_of_nat 34) EmptyString.

(** The listing is ordered by [sort.Slice] with [less] on the names.  Go's
    algorithm is not stable; the model is the insertion sort, which agrees
    with it whenever no two names are equal, as in a directory. *)
Section Sort.
Context {A : Type} (less : A → A → bool).

Fixpoint insert_sorted (x : A) (l : list A) : list A :=
  match l with
  | [] => [x]
  | y :: t => if less y x then y :: insert_sorted x t else x :: y :: t
  end.

Definition sort_Slice (l : list A) : list A :=
  foldr insert_sorted [] l.
End Sort.

Section Program.
Variable W : World.

(** *** serveErrorPage *)
Definition serveErrorPage {Wr} `{ResponseWriter Wr}
    (w : Wr) (code : Z) (pagePath defaultMsg : string) : Wr * list Event :=
  let w := WriteHeader code w in
  if String.eqb pagePath "" then (fst (Write defaultMsg w), [])
  else
    match os_ReadFile W pagePath with
    | Some data => (fst (Write data w), [EvReadFile pagePath])
    | None => (fst (Write defaultMsg w), [EvReadFile pagePath])
    end.

(** *** isExecutable: [mode&0111 != 0], any execute bit set *)
Definition exec_bits : Z := 73.

Definition isExecutable (path : string) : bool :=
  match os_Stat W path with
  | None => false
  | Some info => negb (Z.land (fi_Mode info) exec_bits =? 0)%Z
  end.

(** *** resolveHandlerCommand *)
Definition resolveHandlerCommand (cmdPath : string) : string :=
  if filepath_IsAbs W cmdPath then cmdPath
  else
    match filepath_Abs W cmdPath with
    | None => cmdPath
    | Some abs => abs
    end.

(** *** The CGI environment of handleWithExternal *)

(** One variable per inbound header. *)
Definition header_var (entry : string * list string) : string :=
  let '(name, values) := entry in
  let key := "HTTP_" +:+ Strings.ToUpper (Strings.ReplaceAll name "-" "_") in
  let val := Strings.Join values "," in
  key +:+ "=" +:+ val.

Definition cookie_var (r : Request) : list string :=
  let cookieHeader := Header_Get (Header r) "Cookie" in
  if String.eqb cookieHeader "" then [] else ["HTTP_COOKIE=" +:+ cookieHeader].

Definition server_vars (r : Request) : list string :=
  match net_SplitHostPort W (Host r) with
  | Some (host, port) => ["SERVER_NAME=" +:+ host; "SERVER_PORT=" +:+ port]
  | None => ["SERVER_NAME=" +:+ Host r]
  end.

(** The variables appended to [os.Environ()], in the order of the
    [append] calls. *)
Definition cgi_vars (r : Request) (filePath : string) : list string :=
  [ "REQUEST_METHOD=" +:+ Method r;
    "QUERY_STRING=" +:+ URL_RawQuery r;
    "CONTENT_TYPE=" +:+ Header_Get (Header r) "Content-Type";
    "CONTENT_LENGTH=" +:+ Header_Get (Header r) "Content-Length";
    "SCRIPT_NAME=" +:+ URL_Path r;
    "PATH_INFO=" +:+ filePath;
    "REMOTE_ADDR=" +:+ RemoteAddr r ]
  ++ map header_var (Header r)
  ++ ["HTTP_HOST=" +:+ Host r]
  ++ cookie_var r
  ++ ["SERVER_PROTOCOL=" +:+ Proto r]
  ++ server_vars r
  ++ ["REQUEST_URI=" +:+ RequestURI r].

Definition handler_env (r : Request) (filePath : string) : list string :=
  os_Environ W ++ cgi_vars r filePath.

(** *** The handler-log line: time, command, arguments ([%v]), file
    path, method and request URI, remote address, status, separated
    by bars *)
Definition RFC3339 : string := "2006-01-02T15:04:05Z07:00".

Definition handler_line (cmdPath : string) (args : list string)
    (filePath : string) (r : Request) (status : Z) : string :=
  time_Now W RFC3339 +:+ " | " +:+ cmdPath +:+ " | " +:+ Strings.fmt_v args
  +:+ " | " +:+ filePath +:+ " | " +:+ Method r +:+ " " +:+ url_RequestURI W r
  +:+ " | " +:+ RemoteAddr r +:+ " | status=" +:+ Strings.Itoa status.

(** A [*log.Logger] that may be nil: the sink it writes to, if any. *)
Definition log_to (logger : option Sink) (line : string) : list Event :=
  match logger with
  | Some s => [EvLog s line]
  | None => []
  end.

(** *** handleWithExternal *)
Definition substitute (handler : HandlerConfig) (filePath : string) : list string :=
  map (fun arg => Strings.ReplaceAll arg "{filepath}" filePath) (Args handler).

Definition handleWithExternal {Wr} `{ResponseWriter Wr}
    (w : Wr) (r : Request) (handler : HandlerConfig) (filePath : string)
    (handlerLogger : option Sink) : Wr * list Event :=
  let cmdPath := resolveHandlerCommand (Command handler) in
  if negb (isExecutable cmdPath) then
    let w := WriteHeader 500 w in
    let w := fst (Write ("Handler executable not found or not executable: " +:+ cmdPath) w) in
    (w, EvStat cmdPath
        :: log_to handlerLogger (handler_line cmdPath (Args handler) filePath r 500))
  else
    let args := substitute handler filePath in
    let cmd := mkCmd cmdPath args (handler_env r filePath) (Body r) in
    let res := exec_Run W cmd in
    let output := pr_combined res in
    match proc_err res with
    | Some _ =>
        let w := WriteHeader 500 w in
        let w := fst (Write output w) in
        (w, EvStat cmdPath :: EvExec cmd
            :: log_to handlerLogger (handler_line cmdPath args filePath r 500))
    | None =>
        let w :=
          if String.eqb (HeaderGet w "Content-Type") ""
          then HeaderSet "Content-Type" "text/html; charset=utf-8" w
          else w in
        let w := fst (Write output w) in
        (w, EvStat cmdPath :: EvExec cmd
            :: log_to handlerLogger (handler_line cmdPath args filePath r 200))
    end.

(** *** tryServeIndexWithHandler *)
Fixpoint tryServeIndexWithHandler {Wr} `{ResponseWriter Wr}
    (w : Wr) (r : Request) (dirPath : string) (indexes : list string)
    (handlers : gmap string HandlerConfig) : bool * Wr * list Event :=
  match indexes with
  | [] => (false, w, [])
  | idx :: rest =>
      let indexPath := filepath_Join W dirPath idx in
      let found :=
        match os_Stat W indexPath with
        | Some stat => negb (fi_IsDir stat)
        | None => false
        end in
      if found then
        let ext := Strings.ToLower (Strings.Ext indexPath) in
        match handlers !! ext with
        | Some handler =>
            let '(w, evs) := handleWithExternal w r handler indexPath None in
            (true, w, EvStat indexPath :: evs)
        | None =>
            (true, apply_ops (http_ServeFile W r indexPath) w,
             [EvStat indexPath; EvServeFile indexPath])
        end
      else
        let '(b, w, evs) := tryServeIndexWithHandler w r dirPath rest handlers in
        (b, w, EvStat indexPath :: evs)
  end.

(** *** RenderDirList *)

(** The loop over the entries.  [info, _ := f.Info()] drops the error;
    when there was one, [info] is nil and [info.Size()] dereferences it:
    [None] stands for that panic. *)
Fixpoint collect_infos (files : list DirEntry) : option (list fileInfo) :=
  match files with
  | [] => Some []
  | f :: rest =>
      match de_Info f with
      | None => None
      | Some info =>
          match collect_infos rest with
          | None => None
          | Some infos =>
              Some (mkInfo (de_Name f) (de_IsDir f) (fi_Size info)
                      (time_Format W "2006-01-02 15:04:05" (fi_ModTime info))
                    :: infos)
          end
      end
  end.

Definition name_less (a b : fileInfo) : bool := String.ltb (Name a) (Name b).

Definition slash_if_dir (f : fileInfo) : string :=
  if IsDir f then "/" else "".

(** The built-in template, with the escaping html/template applies in
    each context. *)
Definition builtin_item (prefix : string) (f : fileInfo) : string :=
  "<li><a href=" +:+ dq +:+ esc_url_start W prefix +:+ esc_url_part W (Name f)
  +:+ slash_if_dir f +:+ dq +:+ ">" +:+ esc_html W (Name f) +:+ slash_if_dir f
  +:+ "</a></li>".

Definition builtin_template (d : DirData) : string :=
  "<html><head><title>Index of " +:+ esc_rcdata W (dd_Path d)
  +:+ "</title></head><body><h1>Index of " +:+ esc_html W (dd_Path d)
  +:+ "</h1><ul>"
  +:+ String.concat "" (map (builtin_item (dd_Prefix d)) (dd_Files d))
  +:+ "</ul></body></html>".

Definition tmplPath : string := "html/dirlist.html".

(** The template used: the file when it can be read and parsed, the
    built-in one otherwise. *)
Definition load_template : DirData → string :=
  match os_ReadFile W tmplPath with
  | Some tmplContent =>
      match template_Parse W tmplContent with
      | Some t => t
      | None => builtin_template
      end
  | None => builtin_template
  end.

Definition RenderDirList {Wr} `{ResponseWriter Wr}
    (w : Wr) (r : Request) (dirPath urlPath : string) : Outcome Wr :=
  match os_ReadDir W dirPath with
  | None =>
      let w := WriteHeader 500 w in
      let w := fst (Write "Failed to read directory." w) in
      Returned w [EvReadDir dirPath]
  | Some files =>
      match collect_infos files with
      | None => Panicked w [EvReadDir dirPath]
      | Some infos =>
          let infos := sort_Slice name_less infos in
          let data := mkDirData urlPath infos (template_URLQueryEscaper W urlPath) in
          Returned (fst (Write (load_template data) w))
                   [EvReadDir dirPath; EvReadFile tmplPath]
      end
  end.

(** *** The access-log and error-log lines *)

(** [logAccess]: remote host, identd, user, bracketed time, quoted
    request line, status, bytes, quoted referer, quoted user agent. *)
Definition dash_if_empty (s : string) : string :=
  if String.eqb s "" then "-" else s.

Definition access_line {Wr} (r : Request) (ww : StatusWriter Wr) : string :=
  let remoteHost := Strings.before_last_colon (RemoteAddr r) in
  let user := "-" in
  let identd := "-" in
  let timeStr := time_Now W "02/Jan/2006:15:04:05 -0700" in
  let requestLine := Method r +:+ " " +:+ url_RequestURI W r +:+ " " +:+ Proto r in
  let referer := dash_if_empty (Header_Get (Header r) "Referer") in
  let userAgent := dash_if_empty (Header_Get (Header r) "User-Agent") in
  remoteHost +:+ " " +:+ identd +:+ " " +:+ user +:+ " [" +:+ timeStr +:+ "] "
  +:+ dq +:+ requestLine +:+ dq +:+ " " +:+ Strings.Itoa (Status ww) +:+ " "
  +:+ Strings.Itoa (Bytes ww) +:+ " " +:+ dq +:+ referer +:+ dq +:+ " "
  +:+ dq +:+ userAgent +:+ dq.

Definition logAccess {Wr} (r : Request) (ww : StatusWriter Wr) : Event :=
  EvLog AccessSink (access_line r ww).

(** Method, path, status and remote address, separated by spaces. *)
Definition error_line {Wr} (r : Request) (ww : StatusWriter Wr) : string :=
  Method r +:+ " " +:+ URL_Path r +:+ " " +:+ Strings.Itoa (Status ww)
  +:+ " " +:+ RemoteAddr r.

Definition logError {Wr} (r : Request) (ww : StatusWriter Wr) : Event :=
  EvLog ErrorSink (error_line r ww).

(** *** The request handler registered on ["/"]

    [accessLogger], [errorLogger] and [handlerLogger] come from
    [log.New], which never returns nil, so their nil tests always pass.
    [w] is the writer the server hands in; [ww] wraps it.  In the
    directory branch the listing is rendered on [w] itself, the object
    inside [ww]. *)
Definition then_events {Wr} (evs : list Event) (o : Outcome Wr) : Outcome Wr :=
  match o with
  | Returned w evs' => Returned w (evs ++ evs')
  | Panicked w evs' => Panicked w (evs ++ evs')
  end.

Definition handleRequest {Wr} `{ResponseWriter Wr}
    (cfg : Config) (w : Wr) (r : Request) : Outcome Wr :=
  let filePath := HomeDir cfg +:+ URL_Path r in
  match os_Stat W filePath with
  | Some stat =>
      if fi_IsDir stat then
        let ww := mkStatusWriter w 200 0 in
        let '(ok, ww, evs) :=
          tryServeIndexWithHandler ww r filePath (DefaultIndexes cfg) (Handlers cfg) in
        if ok then
          Returned (sw_ResponseWriter ww) (EvStat filePath :: evs ++ [logAccess r ww])
        else
          then_events (EvStat filePath :: evs)
            (RenderDirList (sw_ResponseWriter ww) r filePath (URL_Path r))
      else
        let ext := Strings.ToLower (Strings.Ext filePath) in
        match Handlers cfg !! ext with
        | Some handler =>
            let ww := mkStatusWriter w 200 0 in
            let '(ww, evs) := handleWithExternal ww r handler filePath (Some HandlerSink) in
            let errs := if (400 <=? Status ww)%Z then [logError r ww] else [] in
            Returned (sw_ResponseWriter ww)
                     (EvStat filePath :: evs ++ errs ++ [logAccess r ww])
        | None =>
            let ww := mkStatusWriter w 200 0 in
            let ww := apply_ops (http_ServeFile W r filePath) ww in
            Returned (sw_ResponseWriter ww)
                     [EvStat filePath; EvServeFile filePath; logAccess r ww]
        end
  | None =>
      let ww := mkStatusWriter w 404 0 in
      let '(ww, evs) :=
        serveErrorPage ww 404 (NotFound (Pages cfg)) "404 page not found" in
      Returned (sw_ResponseWriter ww)
               (EvStat filePath :: evs ++ [logError r ww; logAccess r ww])
  end.

End Program.

Arguments serveErrorPage W {Wr _} w code pagePath defaultMsg.
Arguments handleWithExternal W {Wr _} w r handler filePath handlerLogger.
Arguments tryServeIndexWithHandler W {Wr _} w r dirPath indexes handlers.
Arguments RenderDirList W {Wr _} w r dirPath urlPath.
Arguments handleRequest W {Wr _} cfg w r.

(** ** The older revision, main.go

    It has its own [statusWriter] (the same as [StatusWriter]) and differs
    from the program above in that: the child gets the parent environment
    only, its standard output alone is captured and an error message is
    written before it, and a directory without an index file gets the 404
    page, with its two log lines. *)
Module Legacy.
Section Program.
Variable W : World.

Definition handleWithExternal {Wr} `{ResponseWriter Wr}
    (w : Wr) (r : Request) (handler : HandlerConfig) (filePath : string)
    (handlerLogger : option Sink) : Wr * list Event :=
  let cmdPath := resolveHandlerCommand W (Command handler) in
  if negb (isExecutable W cmdPath) then
    let w := WriteHeader 500 w in
    let w := fst (Write ("Handler executable not found or not executable: " +:+ cmdPath) w) in
    (w, EvStat cmdPath
        :: log_to handlerLogger (handler_line W cmdPath (Args handler) filePath r 500))
  else
    let args := substitute handler filePath in
    let cmd := mkCmd cmdPath args (os_Environ W) (Body r) in
    let res := exec_Run W cmd in
    let output := pr_stdout res in
    match proc_err res with
    | Some msg =>
        let w := WriteHeader 500 w in
        let w := fst (Write ("Handler error: " +:+ msg) w) in
        let w := fst (Write output w) in
        (w, EvStat cmdPath :: EvExec cmd
            :: log_to handlerLogger (handler_line W cmdPath args filePath r 500))
    | None =>
        let w := fst (Write output w) in
        (w, EvStat cmdPath :: EvExec cmd
            :: log_to handlerLogger (handler_line W cmdPath args filePath r 200))
    end.

Fixpoint tryServeIndexWithHandler {Wr} `{ResponseWriter Wr}
    (w : Wr) (r : Request) (dirPath : string) (indexes : list string)
    (handlers : gmap string HandlerConfig) : bool * Wr * list Event :=
  match indexes with
  | [] => (false, w, [])
  | idx :: rest =>
      let indexPath := filepath_Join W dirPath idx in
      let found :=
        match os_Stat W indexPath with
        | Some stat => negb (fi_IsDir stat)
        | None => false
        end in
      if found then
        let ext := Strings.ToLower (Strings.Ext indexPath) in
        match handlers !! ext with
        | Some handler =>
            let '(w, evs) := handleWithExternal w r handler indexPath None in
            (true, w, EvStat indexPath :: evs)
        | None =>
            (true, apply_ops (http_ServeFile W r indexPath) w,
             [EvStat indexPath; EvServeFile indexPath])
        end
      else
        let '(b, w, evs) := tryServeIndexWithHandler w r dirPath rest handlers in
        (b, w, EvStat indexPath :: evs)
  end.

Definition handleRequest {Wr} `{ResponseWriter Wr}
    (cfg : Config) (w : Wr) (r : Request) : Outcome Wr :=
  let filePath := HomeDir cfg +:+ URL_Path r in
  match os_Stat W filePath with
  | Some stat =>
      if fi_IsDir stat then
        let ww := mkStatusWriter w 200 0 in
        let '(ok, ww, evs) :=
          tryServeIndexWithHandler ww r filePath (DefaultIndexes cfg) (Handlers cfg) in
        if ok then
          Returned (sw_ResponseWriter ww) (EvStat filePath :: evs ++ [logAccess W r ww])
        else
          let ww := mkStatusWriter (sw_ResponseWriter ww) 404 (Bytes ww) in
          let '(ww, evs') :=
            serveErrorPage W ww 404 (NotFound (Pages cfg)) "404 page not found" in
          Returned (sw_ResponseWriter ww)
                   (EvStat filePath :: evs ++ evs' ++ [logError r ww; logAccess W r ww])
      else
        let ext := Strings.ToLower (Strings.Ext filePath) in
        match Handlers cfg !! ext with
        | Some handler =>
            let ww := mkStatusWriter w 200 0 in
            let '(ww, evs) := handleWithExternal ww r handler filePath (Some HandlerSink) in
            let errs := if (400 <=? Status ww)%Z then [logError r ww] else [] in
            Returned (sw_ResponseWriter ww)
                     (EvStat filePath :: evs ++ errs ++ [logAccess W r ww])
        | None =>
            let ww := mkStatusWriter w 200 0 in
            let ww := apply_ops (http_ServeFile W r filePath) ww in
            Returned (sw_ResponseWriter ww)
                     [EvStat filePath; EvServeFile filePath; logAccess W r ww]
        end
  | None =>
      let ww := mkStatusWriter w 404 0 in
      let '(ww, evs) :=
        serveErrorPage W ww 404 (NotFound (Pages cfg)) "404 page not found" in
      Returned (sw_ResponseWriter ww)
               (EvStat filePath :: evs ++ [logError r ww; logAccess W r ww])
  end.
End Program.
End Legacy.

(** ** A small installation, to run the program on

    Root [./public] with a page [a.html], a script [run.cgi], a directory
    [sub] without an index file (children [b.txt], [a] and [c]), a
    directory [app] whose [index.cgi] is handled, a directory [gone] with
    an entry that vanished after it was read, a directory [locked] that
    cannot be read, and a directory [old] whose [index.sh] is handled.
    [.cgi] maps to [/bin/run {filepath}], which prints [hello] and exits
    0; [.sh] maps to [/bin/plain], which has no execute bit. *)
Module Demo.

Definition regular (mode : Z) : option FileInfo := Some (mkFileInfo false mode 5 0).
Definition directory : option FileInfo := Some (mkFileInfo true 2147484141 0 0).

Definition stat (path : string) : option FileInfo :=
  if String.eqb path "./public/a.html" then regular 420
  else if String.eqb path "./public/run.cgi" then regular 420
  else if String.eqb path "./public/sub/" then directory
  else if String.eqb path "./public/app/" then directory
  else if String.eqb path "./public/app/index.cgi" then regular 420
  else if String.eqb path "./public/gone/" then directory
  else if String.eqb path "./public/locked/" then directory
  else if String.eqb path "./public/old/" then directory
  else if String.eqb path "./public/old/index.sh" then regular 420
  else if String.eqb path "/bin/run" then regular 493
  else if String.eqb path "/bin/plain" then regular 420
  else None.

Definition readDir (path : string) : option (list DirEntry) :=
  if String.eqb path "./public/sub/" then
    Some [ mkDirEntry "b.txt" false (regular 420);
           mkDirEntry "a" true directory;
           mkDirEntry "c" false (regular 420) ]
  else if String.eqb path "./public/gone/" then
    Some [ mkDirEntry "kept" false (regular 420);
           mkDirEntry "vanished" false None ]
  else None.

(** Stand-ins for the library: joining with a slash, splitting at the
    last colon, the path and query as the request URI. *)
Definition ends_with_slash (s : string) : bool :=
  match rev (list_ascii_of_string s) with
  | c :: _ => Ascii.eqb c "/"
  | [] => false
  end.

Definition join (dir name : string) : string :=
  if ends_with_slash dir then dir +:+ name else dir +:+ "/" +:+ name.

Definition splitHostPort (hostport : string) : option (string * string) :=
  match Strings.drop_to_colon (rev (list_ascii_of_string hostport)) with
  | Some _ =>
      let host := Strings.before_last_colon hostport in
      Some (host, String.substring (S (String.length host))
                    (String.length hostport) hostport)
  | None => None
  end.

Definition requestURI (r : Request) : string :=
  if String.eqb (URL_RawQuery r) "" then URL_Path r
  else URL_Path r +:+ "?" +:+ URL_RawQuery r.

Definition run (c : Cmd) : ProcResult :=
  if String.eqb (cmd_Path c) "/bin/run" then mkProc "hello" "hello" (Exited 0)
  else mkProc "" "boom" (Exited 2).

Definition world : World := {|
  os_Stat := stat;
  os_ReadFile := fun _ => None;
  os_ReadDir := readDir;
  os_Environ := ["PATH=/bin"];
  filepath_IsAbs := String.prefix "/";
  filepath_Abs := fun p => Some ("/srv/" +:+ p);
  filepath_Join := join;
  net_SplitHostPort := splitHostPort;
  url_RequestURI := requestURI;
  time_Now := fun _ => "now";
  time_Format := fun _ _ => "then";
  exec_Run := run;
  http_ServeFile := fun _ _ => [OpWrite "<p>a</p>"];
  template_Parse := fun _ => None;
  template_URLQueryEscaper := fun s => s;
  esc_rcdata := fun s => s;
  esc_html := fun s => s;
  esc_url_start := fun s => s;
  esc_url_part := fun s => s
|}.

Definition cgi : HandlerConfig := mkHandler "/bin/run" ["{filepath}"].
Definition plain : HandlerConfig := mkHandler "/bin/plain" ["{filepath}"].

Definition config : Config := {|
  HomeDir := "./public";
  Port := "80";
  Pages := mkErrorPages "./public/404.html" "./public/500.html";
  DefaultIndexes := ["index.html"; "index.cgi"; "index.sh"];
  Handlers := <[".cgi" := cgi]> (<[".sh" := plain]> ∅);
  AccessLog := "";
  ErrorLog := "";
  HandlerLog := ""
|}.

Definition get (path : string) (headers : list (string * list string)) : Request := {|
  Method := "GET";
  URL_Path := path;
  URL_RawQuery := "";
  RequestURI := path;
  Proto := "HTTP/1.1";
  Host := "localhost:80";
  RemoteAddr := "10.0.0.1:5000";
  Header := headers;
  Body := ""
|}.

End Demo.

(** ** The rest of the program *)

(** *** tryServeIndex, the resolver without handlers kept beside
    tryServeIndexWithHandler *)
Fixpoint tryServeIndex (W : World) {Wr} `{ResponseWriter Wr}
    (w : Wr) (r : Request) (dirPath : string) (indexes : list string)
  : bool * Wr * list Event :=
  match indexes with
  | [] => (false, w, [])
  | idx :: rest =>
      let indexPath := filepath_Join W dirPath idx in
      let found :=
        match os_Stat W indexPath with
        | Some stat => negb (fi_IsDir stat)
        | None => false
        end in
      if found then
        (true, apply_ops (http_ServeFile W r indexPath) w,
         [EvStat indexPath; EvServeFile indexPath])
      else
        let '(b, w, evs) := tryServeIndex W w r dirPath rest in
        (b, w, EvStat indexPath :: evs)
  end.

(** *** The configuration [main] serves with

    The built-in values, then the fields the configuration file sets,
    then the flags.  [fileCfg] is what [loadConfig] decoded, [None] when
    the file is missing or does not decode. *)
Definition defaultConfig : Config := {|
  HomeDir := "./public";
  Port := "80";
  Pages := mkErrorPages "./public/404.html" "./public/500.html";
  DefaultIndexes := ["index.html"; "index.htm"];
  Handlers := ∅;
  AccessLog := "";
  ErrorLog := "";
  HandlerLog := ""
|}.

Definition or_else (value fallback : string) : string :=
  if String.eqb value "" then fallback else value.

Definition mergeFileConfig (cfg fileCfg : Config) : Config := {|
  HomeDir := or_else (HomeDir fileCfg) (HomeDir cfg);
  Port := or_else (Port fileCfg) (Port cfg);
  Pages := mkErrorPages (or_else (NotFound (Pages fileCfg)) (NotFound (Pages cfg)))
                        (or_else (Internal (Pages fileCfg)) (Internal (Pages cfg)));
  DefaultIndexes :=
    if (0 <? List.length (DefaultIndexes fileCfg))%nat
    then DefaultIndexes fileCfg else DefaultIndexes cfg;
  Handlers :=
    if (0 <? size (Handlers fileCfg))%nat then Handlers fileCfg else Handlers cfg;
  AccessLog := or_else (AccessLog fileCfg) (AccessLog cfg);
  ErrorLog := or_else (ErrorLog fileCfg) (ErrorLog cfg);
  HandlerLog := or_else (HandlerLog fileCfg) (HandlerLog cfg)
|}.

Definition applyFlags (homeDirFlag portFlag : string) (cfg : Config) : Config := {|
  HomeDir := or_else homeDirFlag (HomeDir cfg);
  Port := or_else portFlag (Port cfg);
  Pages := Pages cfg;
  DefaultIndexes := DefaultIndexes cfg;
  Handlers := Handlers cfg;
  AccessLog := AccessLog cfg;
  ErrorLog := ErrorLog cfg;
  HandlerLog := HandlerLog cfg
|}.

Definition startupConfig (fileCfg : option Config) (homeDirFlag portFlag : string)
  : Config :=
  applyFlags homeDirFlag portFlag
    match fileCfg with
    | Some fileCfg => mergeFileConfig defaultConfig fileCfg
    | None => defaultConfig
    end.

(** The listening address and the three log files opened. *)
Definition listenAddr (cfg : Config) : string := ":" +:+ Port cfg.
Definition accessLogPath (cfg : Config) : string := or_else (AccessLog cfg) "access.log".
Definition errorLogPath (cfg : Config) : string := or_else (ErrorLog cfg) "error.log".
Definition handlerLogPath (cfg : Config) : string := or_else (HandlerLog cfg) "handler.log".

(** The same configuration with another handler table. *)
Definition with_Handlers (handlers : gmap string HandlerConfig) (cfg : Config) : Config := {|
  HomeDir := HomeDir cfg;
  Port := Port cfg;
  Pages := Pages cfg;
  DefaultIndexes := DefaultIndexes cfg;
  Handlers := handlers;
  AccessLog := AccessLog cfg;
  ErrorLog := ErrorLog cfg;
  HandlerLog := HandlerLog cfg
|}.

(** The body of the error page: the page file when a path is configured
    and the file can be read, the default message otherwise. *)
Definition error_body (W : World) (pagePath defaultMsg : string) : string :=
  if String.eqb pagePath "" then defaultMsg
  else match os_ReadFile W pagePath with
       | Some data => data
       | None => defaultMsg
       end.

(** *** Notions for the statements about the writers *)

(** The code of the last [WriteHeader] among the calls, [init] when
    there is none. *)
Definition last_code (init : Z) (ops : list WriterOp) : Z :=
  fold_left (fun code op => match op with OpWriteHeader c => c | _ => code end) ops init.

Definition is_WriteHeader (op : WriterOp) : bool :=
  match op with OpWriteHeader _ => true | _ => false end.

Definition is_SetHeader (op : WriterOp) : bool :=
  match op with OpSetHeader _ _ => true | _ => false end.


(** An upper-case ASCII letter. *)
Definition is_upper (c : ascii) : bool :=
  ((65 <=? N_of_ascii c) && (N_of_ascii c <=? 90))%N.

(** A lower-case ASCII letter. *)
Definition is_lower (c : ascii) : bool :=
  ((97 <=? N_of_ascii c) && (N_of_ascii c <=? 122))%N.

(** The bytes of a string. *)
Definition bytes_of (s : string) : list ascii := list_ascii_of_string s.

(** ** Notions used in the statements *)

(** No execute bit for owner, group or others. *)
Definition no_exec_bit (mode : Z) : Prop :=
  Z.testbit mode 0 = false ∧ Z.testbit mode 3 = false ∧ Z.testbit mode 6 = false.

(** A connection on which nothing has been sent yet, with the headers
    set so far. *)
Definition unsent (h : gmap string (list string)) : Conn := mkConn h None "".

(** The wrapped writer the dispatcher hands to the invoker. *)
Definition wrapped (h : gmap string (list string)) : StatusWriter Conn :=
  mkStatusWriter (unsent h) 200 0.

(** The command the invoker builds once the check has passed. *)
Definition handler_cmd (W : World) (r : Request) (handler : HandlerConfig) (filePath : string) : Cmd :=
  mkCmd (resolveHandlerCommand W (Command handler)) (substitute handler filePath)
        (handler_env W r filePath) (Body r).

(** The status the invoker reports to the handler log. *)
Definition handler_status (W : World) (r : Request) (handler : HandlerConfig) (filePath : string) : Z :=
  if isExecutable W (resolveHandlerCommand W (Command handler)) then
    match proc_err (exec_Run W (handler_cmd W r handler filePath)) with
    | None => 200%Z
    | Some _ => 500%Z
    end
  else 500%Z.

(** The variable set as the specification lists it, as name/value pairs. *)
Module Spec.

(** Hyphens replaced by underscores, then upper-cased. *)
Definition header_name (name : string) : string :=
  Strings.map_bytes
    (fun c => Strings.upper_ascii (if Ascii.eqb c "-" then "_"%char else c)) name.

Definition comma_joined (values : list string) : string :=
  String.concat "," values.

Definition cgi_pairs (W : World) (r : Request) (filePath : string)
  : list (string * string) :=
  [ ("REQUEST_METHOD", Method r);
    ("QUERY_STRING", URL_RawQuery r);
    ("CONTENT_TYPE", Header_Get (Header r) "Content-Type");
    ("CONTENT_LENGTH", Header_Get (Header r) "Content-Length");
    ("SCRIPT_NAME", URL_Path r);
    ("PATH_INFO", filePath);
    ("REMOTE_ADDR", RemoteAddr r) ]
  ++ map (fun entry => ("HTTP_" +:+ header_name (fst entry), comma_joined (snd entry)))
       (Header r)
  ++ [("HTTP_HOST", Host r)]
  ++ match header_lookup (Header r) "Cookie" with
     | Some (String c v :: _) => [("HTTP_COOKIE", String c v)]
     | _ => []
     end
  ++ [("SERVER_PROTOCOL", Proto r)]
  ++ match net_SplitHostPort W (Host r) with
     | Some (host, port) => [("SERVER_NAME", host); ("SERVER_PORT", port)]
     | None => [("SERVER_NAME", Host r)]
     end
  ++ [("REQUEST_URI", RequestURI r)].

(** A pair as it stands in an environment. *)
Definition setting (p : string * string) : string := fst p +:+ "=" +:+ snd p.

End Spec.

(** An [HTTP_COOKIE] setting. *)
Definition is_cookie_var (setting : string) : bool :=
  String.prefix "HTTP_COOKIE=" setting.

(** The [HTTP_COOKIE] settings among the variables the program appends. *)
Definition cookie_settings (W : World) (r : Request) (filePath : string) : list string :=
  List.filter is_cookie_var (cgi_vars W r filePath).

(** The probe of one index filename: it exists and is not a directory. *)
Definition index_matches (W : World) (dirPath idx : string) : bool :=
  match os_Stat W (filepath_Join W dirPath idx) with
  | Some stat => negb (fi_IsDir stat)
  | None => false
  end.

Definition probe (W : World) (dirPath idx : string) : Event :=
  EvStat (filepath_Join W dirPath idx).

(** The same installation with another answer to directory enumeration. *)
Definition with_ReadDir (readDir : string → option (list DirEntry)) (W : World) : World := {|
  os_Stat := os_Stat W;
  os_ReadFile := os_ReadFile W;
  os_ReadDir := readDir;
  os_Environ := os_Environ W;
  filepath_IsAbs := filepath_IsAbs W;
  filepath_Abs := filepath_Abs W;
  filepath_Join := filepath_Join W;
  net_SplitHostPort := net_SplitHostPort W;
  url_RequestURI := url_RequestURI W;
  time_Now := time_Now W;
  time_Format := time_Format W;
  exec_Run := exec_Run W;
  http_ServeFile := http_ServeFile W;
  template_Parse := template_Parse W;
  template_URLQueryEscaper := template_URLQueryEscaper W;
  esc_rcdata := esc_rcdata W;
  esc_html := esc_html W;
  esc_url_start := esc_url_start W;
  esc_url_part := esc_url_part W
|}.

(** The same configuration with other error pages. *)
Definition with_Pages (pages : ErrorPages) (cfg : Config) : Config := {|
  HomeDir := HomeDir cfg;
  Port := Port cfg;
  Pages := pages;
  DefaultIndexes := DefaultIndexes cfg;
  Handlers := Handlers cfg;
  AccessLog := AccessLog cfg;
  ErrorLog := ErrorLog cfg;
  HandlerLog := HandlerLog cfg
|}.

(** Ascending by name, byte-wise. *)
Definition name_le (a b : fileInfo) : Prop := String.leb (Name a) (Name b) = true.

(** A directory entry, and an entry of the listing, as name and directory
    flag. *)
Definition entry_of (f : DirEntry) : string * bool := (de_Name f, de_IsDir f).
Definition listed_as (i : fileInfo) : string * bool := (Name i, IsDir i).

(** The template read from [html/dirlist.html], when there is one that
    parses. *)
Definition parsed_template (W : World) : option (DirData → string) :=
  match os_ReadFile W tmplPath with
  | Some tmplContent => template_Parse W tmplContent
  | None => None
  end.

(** The process a request may run: the command of a configured handler
    that passed the check, on the requested path or on one of the index
    files under it. *)
Definition runs_handler (W : World) (cfg : Config) (r : Request) (cmds : list Cmd) : Prop :=
  ∃ ext handler target,
    Handlers cfg !! ext = Some handler ∧
    isExecutable W (resolveHandlerCommand W (Command handler)) = true ∧
    (target = HomeDir cfg +:+ URL_Path r ∨
     ∃ idx, In idx (DefaultIndexes cfg) ∧
            target = filepath_Join W (HomeDir cfg +:+ URL_Path r) idx) ∧
    cmds = [handler_cmd W r handler target].

(** A key with an upper-case letter, or a non-empty key that does not
    start with a dot. *)
Definition unmatchable (key : string) : Prop :=
  Exists (fun c => is_upper c = true) (bytes_of key) ∨
  ∃ c rest, key = String c rest ∧ c ≠ "."%char.

(** The command the older invoker builds: the parent environment alone. *)
Definition legacy_cmd (W : World) (r : Request) (handler : HandlerConfig)
    (filePath : string) : Cmd :=
  mkCmd (resolveHandlerCommand W (Command handler)) (substitute handler filePath)
        (os_Environ W) (Body r).

(** * Properties *)

(** ** The execute-permission test *)

Lemma exec_bits_spec (n : Z) :
  (0 <= n)%Z → Z.testbit exec_bits n = true → n = 0%Z ∨ n = 3%Z ∨ n = 6%Z.
Proof.
  intros Hn Hbit.
  destruct (Z_lt_le_dec n 7) as [Hlt | Hge].
  - assert (n = 0 ∨ n = 1 ∨ n = 2 ∨ n = 3 ∨ n = 4 ∨ n = 5 ∨ n = 6)%Z
      as Hcases by lia.
    destruct Hcases as [-> | [-> | [-> | [-> | [-> | [-> | ->]]]]]];
      (auto || discriminate Hbit).
  - rewrite Z.bits_above_log2 in Hbit; [discriminate | unfold exec_bits; lia |].
    unfold exec_bits. change (Z.log2 73) with 6%Z. lia.
Qed.

Lemma land_exec_bits_zero (mode : Z) :
  Z.land mode exec_bits = 0%Z ↔ no_exec_bit mode.
Proof.
  split.
  - intros Hz.
    assert (∀ n, Z.testbit mode n && Z.testbit exec_bits n = false) as Hbits.
    { intros n. rewrite <- Z.land_spec, Hz. apply Z.bits_0. }
    unfold no_exec_bit.
    pose proof (Hbits 0%Z) as H0. pose proof (Hbits 3%Z) as H3.
    pose proof (Hbits 6%Z) as H6.
    change (Z.testbit exec_bits 0) with true in H0.
    change (Z.testbit exec_bits 3) with true in H3.
    change (Z.testbit exec_bits 6) with true in H6.
    rewrite andb_true_r in H0, H3, H6. auto.
  - intros (H0 & H3 & H6).
    apply Z.bits_inj'. intros n Hn.
    rewrite Z.land_spec, Z.bits_0.
    destruct (Z.testbit exec_bits n) eqn:Hbit; [| apply andb_false_r].
    destruct (exec_bits_spec n Hn Hbit) as [-> | [-> | ->]];
      rewrite ?H0, ?H3, ?H6; reflexivity.
Qed.

(** [isExecutable] is false exactly when the path cannot be stat'ed or
    carries no execute bit. *)
Lemma isExecutable_false (W : World) (path : string) :
  isExecutable W path = false ↔
  os_Stat W path = None ∨
  ∃ info, os_Stat W path = Some info ∧ no_exec_bit (fi_Mode info).
Proof.
  unfold isExecutable.
  destruct (os_Stat W path) as [info |]; [| tauto].
  rewrite negb_false_iff, Z.eqb_eq, land_exec_bits_zero.
  split.
  - intros Hno. right. exists info. auto.
  - intros [Hnone | (info' & Heq & Hno)]; [discriminate |].
    injection Heq as <-. exact Hno.
Qed.

(** ** The writers *)

Lemma conn_Write_unsent (h : gmap string (list string)) (data : string) :
  conn_Write data (unsent h) = (mkConn h (Some (200%Z, h)) data, Strings.len data).
Proof. reflexivity. Qed.

Lemma conn_Write_after_500 (h : gmap string (list string)) (data : string) :
  conn_Write data (conn_WriteHeader 500 (unsent h))
  = (mkConn h (Some (500%Z, h)) data, Strings.len data).
Proof. reflexivity. Qed.

(** The wrapper forwards both calls unchanged: the embedded writer ends
    up as if it had been called directly. *)
Lemma StatusWriter_WriteHeader_inner {Wr} `{ResponseWriter Wr}
    (code : Z) (ww : StatusWriter Wr) :
  sw_ResponseWriter (WriteHeader code ww) = WriteHeader code (sw_ResponseWriter ww).
Proof. reflexivity. Qed.

Lemma StatusWriter_Write_inner {Wr} `{ResponseWriter Wr}
    (b : string) (ww : StatusWriter Wr) :
  sw_ResponseWriter (fst (Write b ww)) = fst (Write b (sw_ResponseWriter ww)).
Proof.
  cbn. unfold StatusWriter_Write.
  destruct (Write b (sw_ResponseWriter ww)) as [inner n]. reflexivity.
Qed.

Lemma StatusWriter_Write_fields {Wr} `{ResponseWriter Wr}
    (b : string) (ww : StatusWriter Wr) :
  Status (fst (Write b ww)) = Status ww ∧
  Bytes (fst (Write b ww)) = (Bytes ww + snd (Write b (sw_ResponseWriter ww)))%Z.
Proof.
  cbn. unfold StatusWriter_Write.
  destruct (Write b (sw_ResponseWriter ww)) as [inner n]. split; reflexivity.
Qed.

(** ** handleWithExternal *)

Section HandleWithExternal.
Variable W : World.

(** What the invoker does to the outside, on any writer. *)
Lemma handleWithExternal_events {Wr} `{ResponseWriter Wr}
    (w : Wr) (r : Request) (handler : HandlerConfig) (filePath : string)
    (logger : option Sink) :
  let cmdPath := resolveHandlerCommand W (Command handler) in
  snd (handleWithExternal W w r handler filePath logger) =
    if isExecutable W cmdPath then
      EvStat cmdPath :: EvExec (handler_cmd W r handler filePath)
        :: log_to logger (handler_line W cmdPath (substitute handler filePath) filePath r
                            (handler_status W r handler filePath))
    else
      EvStat cmdPath
        :: log_to logger (handler_line W cmdPath (Args handler) filePath r 500).
Proof.
  unfold handleWithExternal, handler_status, handler_cmd. cbv zeta.
  destruct (isExecutable W (resolveHandlerCommand W (Command handler))); cbn [negb].
  - destruct (proc_err _); reflexivity.
  - reflexivity.
Qed.

(** What the invoker writes, on any writer. *)
Lemma handleWithExternal_writer {Wr} `{ResponseWriter Wr}
    (w : Wr) (r : Request) (handler : HandlerConfig) (filePath : string)
    (logger : option Sink) :
  let cmdPath := resolveHandlerCommand W (Command handler) in
  let output := pr_combined (exec_Run W (handler_cmd W r handler filePath)) in
  fst (handleWithExternal W w r handler filePath logger) =
    if isExecutable W cmdPath then
      match proc_err (exec_Run W (handler_cmd W r handler filePath)) with
      | Some _ => fst (Write output (WriteHeader 500 w))
      | None =>
          fst (Write output
                 (if String.eqb (HeaderGet w "Content-Type") ""
                  then HeaderSet "Content-Type" "text/html; charset=utf-8" w
                  else w))
      end
    else
      fst (Write ("Handler executable not found or not executable: " +:+ cmdPath)
             (WriteHeader 500 w)).
Proof.
  unfold handleWithExternal, handler_cmd. cbv zeta.
  destruct (isExecutable W (resolveHandlerCommand W (Command handler))); cbn [negb].
  - destruct (proc_err _); reflexivity.
  - reflexivity.
Qed.

Lemma log_lines_log_to (s : Sink) (logger : option Sink) (line : string) :
  log_lines s (log_to logger line) =
    match logger with
    | Some s' => if bool_decide (s = s') then [line] else []
    | None => []
    end.
Proof. destruct logger as [s' |]; [cbn; case_bool_decide |]; reflexivity. Qed.

Lemma execs_log_to (logger : option Sink) (line : string) :
  execs (log_to logger line) = [].
Proof. destruct logger; reflexivity. Qed.

End HandleWithExternal.

(** C3.  When the resolved command path does not exist or has no execute
    bit set, the invoker answers 500 with a body that names the command
    path, and runs no process.  (The response is the one seen through the
    dispatcher's wrapper on a connection where nothing was sent yet.) *)
Theorem handleWithExternal_not_executable
    (W : World) (h : gmap string (list string)) (r : Request)
    (handler : HandlerConfig) (filePath : string) (logger : option Sink) :
  let cmdPath := resolveHandlerCommand W (Command handler) in
  (os_Stat W cmdPath = None ∨
   ∃ info, os_Stat W cmdPath = Some info ∧ no_exec_bit (fi_Mode info)) →
  let res := handleWithExternal W (wrapped h) r handler filePath logger in
  Status (fst res) = 500%Z ∧
  conn_status (sw_ResponseWriter (fst res)) = 500%Z ∧
  c_body (sw_ResponseWriter (fst res))
    = "Handler executable not found or not executable: " +:+ cmdPath ∧
  execs (snd res) = [].
Proof.
  intros cmdPath Hcheck res.
  apply isExecutable_false in Hcheck.
  subst res.
  rewrite handleWithExternal_writer, handleWithExternal_events.
  fold cmdPath. rewrite Hcheck.
  repeat split; try reflexivity.
  cbn [execs]. apply execs_log_to.
Qed.

(** The check fails for a command without execute bits ([/bin/plain],
    mode 0644). *)
Lemma handleWithExternal_not_executable_witness :
  let res := handleWithExternal Demo.world (wrapped ∅) (Demo.get "/run.cgi" [])
               Demo.plain "./public/run.cgi" (Some HandlerSink) in
  Status (fst res) = 500%Z ∧
  conn_status (sw_ResponseWriter (fst res)) = 500%Z ∧
  c_body (sw_ResponseWriter (fst res))
    = "Handler executable not found or not executable: /bin/plain" ∧
  execs (snd res) = [].
Proof.
  apply (handleWithExternal_not_executable Demo.world ∅ (Demo.get "/run.cgi" [])
           Demo.plain "./public/run.cgi" (Some HandlerSink)).
  right. exists (mkFileInfo false 420 5 0).
  split; [reflexivity | repeat split; reflexivity].
Defined.

(** C4.  Once the check has passed, the body is exactly the combined
    output of the child; the status is 200 when it exits 0, with
    [Content-Type] set to [text/html; charset=utf-8] when none was set
    and left alone otherwise; the status is 500 when it exits non-zero or
    does not start. *)
Theorem handleWithExternal_output
    (W : World) (h : gmap string (list string)) (r : Request)
    (handler : HandlerConfig) (filePath : string) (logger : option Sink) :
  isExecutable W (resolveHandlerCommand W (Command handler)) = true →
  let child := exec_Run W (handler_cmd W r handler filePath) in
  let res := handleWithExternal W (wrapped h) r handler filePath logger in
  let conn := sw_ResponseWriter (fst res) in
  execs (snd res) = [handler_cmd W r handler filePath] ∧
  c_body conn = pr_combined child ∧
  (pr_exit child = Exited 0 →
     conn_status conn = 200%Z ∧ Status (fst res) = 200%Z ∧
     conn_sent_header conn !! "Content-Type" =
       if String.eqb (conn_HeaderGet (unsent h) "Content-Type") ""
       then Some ["text/html; charset=utf-8"]
       else h !! "Content-Type") ∧
  (∀ code, code ≠ 0%Z → pr_exit child = Exited code →
     conn_status conn = 500%Z ∧ Status (fst res) = 500%Z) ∧
  (∀ msg, pr_exit child = StartFailed msg →
     conn_status conn = 500%Z ∧ Status (fst res) = 500%Z).
Proof.
  intros Hexec child res conn. subst conn res.
  rewrite handleWithExternal_writer, handleWithExternal_events, Hexec.
  fold child.
  split; [cbn [execs]; by rewrite execs_log_to |].
  unfold proc_err.
  destruct (pr_exit child) as [code | msg] eqn:Hexit.
  - destruct code as [| p | p].
    + cbn [HeaderGet StatusWriter_writer StatusWriter_HeaderGet wrapped sw_ResponseWriter
             Conn_writer].
      destruct (String.eqb (conn_HeaderGet (unsent h) "Content-Type") "") eqn:Hct.
      * split_and!; [reflexivity | | |].
        -- intros _. split_and!; [reflexivity | reflexivity |].
           cbn. by rewrite lookup_insert_eq.
        -- intros code Hne Heq. by injection Heq as <-.
        -- intros msg Heq. discriminate Heq.
      * split_and!; [reflexivity | | |].
        -- intros _. split_and!; reflexivity.
        -- intros code Hne Heq. by injection Heq as <-.
        -- intros msg Heq. discriminate Heq.
    + split_and!; [reflexivity | | |].
      * intros Heq. discriminate Heq.
      * intros code Hne Heq. split; reflexivity.
      * intros msg Heq. discriminate Heq.
    + split_and!; [reflexivity | | |].
      * intros Heq. discriminate Heq.
      * intros code Hne Heq. split; reflexivity.
      * intros msg Heq. discriminate Heq.
  - split_and!; [reflexivity | | |].
    + intros Heq. discriminate Heq.
    + intros code Hne Heq. discriminate Heq.
    + intros msg' Heq. split; reflexivity.
Qed.

(** The check passes for [/bin/run] (mode 0755), which prints [hello]
    and exits 0. *)
Lemma handleWithExternal_output_witness :
  let res := handleWithExternal Demo.world (wrapped ∅) (Demo.get "/run.cgi" [])
               Demo.cgi "./public/run.cgi" (Some HandlerSink) in
  c_body (sw_ResponseWriter (fst res)) = "hello" ∧
  conn_status (sw_ResponseWriter (fst res)) = 200%Z ∧
  conn_sent_header (sw_ResponseWriter (fst res)) !! "Content-Type"
    = Some ["text/html; charset=utf-8"].
Proof.
  destruct (handleWithExternal_output Demo.world ∅ (Demo.get "/run.cgi" [])
              Demo.cgi "./public/run.cgi" (Some HandlerSink) eq_refl)
    as (_ & Hbody & Hzero & _).
  destruct (Hzero eq_refl) as (Hstatus & _ & Htype).
  exact (conj Hbody (conj Hstatus Htype)).
Defined.

(** ** The handler log *)

Lemma tryServeIndexWithHandler_no_handler_log (W : World) {Wr} `{ResponseWriter Wr}
    (w : Wr) (r : Request) (dirPath : string) (indexes : list string)
    (handlers : gmap string HandlerConfig) :
  log_lines HandlerSink (snd (tryServeIndexWithHandler W w r dirPath indexes handlers)) = [].
Proof.
  induction indexes as [| idx rest IH]; [reflexivity |].
  cbn [tryServeIndexWithHandler].
  destruct (match os_Stat W (filepath_Join W dirPath idx) with
            | Some stat => negb (fi_IsDir stat)
            | None => false
            end).
  - destruct (handlers !! _) as [handler |]; [| reflexivity].
    pose proof (handleWithExternal_events W w r handler (filepath_Join W dirPath idx) None)
      as Hev.
    destruct (handleWithExternal W w r handler (filepath_Join W dirPath idx) None)
      as [w' evs].
    cbn [snd] in Hev |- *. rewrite Hev.
    destruct (isExecutable W _); reflexivity.
  - destruct (tryServeIndexWithHandler W w r dirPath rest handlers) as [[b w'] evs].
    exact IH.
Qed.

(** C5, as the program has it.  An invocation made with the handler
    logger (the top-level file branch), the immediate-failure path
    included, writes exactly one handler-log line: time, resolved command,
    arguments, target path, method, request URI, remote address and the
    final status.  The arguments are the substituted ones when the
    command was run and the templates as configured on the
    immediate-failure path.  An invocation made without a logger writes
    none, and index-file resolution always invokes without one. *)
Theorem handler_log_line
    (W : World) (h : gmap string (list string)) (r : Request)
    (handler : HandlerConfig) (filePath : string) :
  let cmdPath := resolveHandlerCommand W (Command handler) in
  let logged := handleWithExternal W (wrapped h) r handler filePath (Some HandlerSink) in
  let silent := handleWithExternal W (wrapped h) r handler filePath None in
  log_lines HandlerSink (snd logged) =
    [ handler_line W cmdPath
        (if isExecutable W cmdPath then substitute handler filePath else Args handler)
        filePath r (Status (fst logged)) ] ∧
  conn_status (sw_ResponseWriter (fst logged)) = Status (fst logged) ∧
  log_lines HandlerSink (snd silent) = [] ∧
  ∀ dirPath indexes handlers,
    log_lines HandlerSink
      (snd (tryServeIndexWithHandler W (wrapped h) r dirPath indexes handlers)) = [].
Proof.
  intros cmdPath logged silent. subst logged silent.
  rewrite !handleWithExternal_events, !handleWithExternal_writer.
  fold cmdPath. unfold handler_status. fold cmdPath.
  split_and!.
  - destruct (isExecutable W cmdPath); [| reflexivity].
    destruct (proc_err _); [reflexivity |].
    cbn [HeaderGet StatusWriter_writer StatusWriter_HeaderGet wrapped sw_ResponseWriter
           Conn_writer].
    destruct (String.eqb _ ""); reflexivity.
  - destruct (isExecutable W cmdPath); [| reflexivity].
    destruct (proc_err _); [reflexivity |].
    cbn [HeaderGet StatusWriter_writer StatusWriter_HeaderGet wrapped sw_ResponseWriter
           Conn_writer].
    destruct (String.eqb _ ""); reflexivity.
  - destruct (isExecutable W cmdPath); reflexivity.
  - intros. apply tryServeIndexWithHandler_no_handler_log.
Qed.

(** C5 as stated fails.  A request for [/app/] reaches the handler
    through [index.cgi]: one process is run and no handler-log line is
    written.  And on the immediate-failure path the line carries the
    argument template, not the substituted argument. *)
Lemma handler_log_line_counterexample :
  let viaIndex := handleRequest Demo.world Demo.config fresh_conn (Demo.get "/app/" []) in
  let failing := handleWithExternal Demo.world (wrapped ∅) (Demo.get "/run.cgi" [])
                   Demo.plain "./public/run.cgi" (Some HandlerSink) in
  List.length (execs (outcome_events viaIndex)) = 1%nat ∧
  List.length (log_lines HandlerSink (outcome_events viaIndex)) ≠ 1%nat ∧
  log_lines HandlerSink (snd failing) ≠
    [ handler_line Demo.world "/bin/plain" (substitute Demo.plain "./public/run.cgi")
        "./public/run.cgi" (Demo.get "/run.cgi" []) 500 ].
Proof.
  split_and!.
  - reflexivity.
  - vm_compute. discriminate.
  - vm_compute. discriminate.
Qed.

(** ** The CGI environment *)

Lemma map_bytes_compose (f g : ascii → ascii) (s : string) :
  Strings.map_bytes f (Strings.map_bytes g s) = Strings.map_bytes (fun c => f (g c)) s.
Proof. induction s as [| c s IH]; cbn; [reflexivity | by rewrite IH]. Qed.

Lemma ReplaceAll_hyphen (s : string) :
  Strings.ReplaceAll s "-" "_"
  = Strings.map_bytes (fun c => if Ascii.eqb c "-" then "_"%char else c) s.
Proof.
  unfold Strings.ReplaceAll.
  induction s as [| c s IH]; [reflexivity |].
  cbn [Strings.replace_from Strings.map_bytes String.prefix].
  destruct (ascii_dec "-" c) as [<- | Hne].
  - replace (String.prefix "" s) with true by (by destruct s).
    cbn. f_equal. exact IH.
  - destruct (Ascii.eqb_spec c "-") as [-> | _]; [done |].
    f_equal. exact IH.
Qed.

Lemma header_var_spec (entry : string * list string) :
  header_var entry
  = Spec.setting ("HTTP_" +:+ Spec.header_name (fst entry), Spec.comma_joined (snd entry)).
Proof.
  destruct entry as [name values].
  unfold header_var, Spec.setting, Spec.header_name, Spec.comma_joined,
    Strings.ToUpper, Strings.Join.
  cbn [fst snd].
  by rewrite ReplaceAll_hyphen, map_bytes_compose.
Qed.

Lemma cookie_var_spec (r : Request) :
  cookie_var r
  = map Spec.setting
      match header_lookup (Header r) "Cookie" with
      | Some (String c v :: _) => [("HTTP_COOKIE", String c v)]
      | _ => []
      end.
Proof.
  unfold cookie_var, Header_Get.
  destruct (header_lookup (Header r) "Cookie") as [[| [| c v] vs] |]; reflexivity.
Qed.

Lemma cgi_vars_spec (W : World) (r : Request) (filePath : string) :
  cgi_vars W r filePath = map Spec.setting (Spec.cgi_pairs W r filePath).
Proof.
  unfold cgi_vars, Spec.cgi_pairs.
  rewrite !map_app, cookie_var_spec, map_map.
  f_equal. f_equal.
  { apply map_ext. intros entry. apply header_var_spec. }
  f_equal. f_equal. f_equal. f_equal.
  unfold server_vars.
  destruct (net_SplitHostPort W (Host r)) as [[host port] |]; reflexivity.
Qed.

Lemma header_lookup_In (h : list (string * list string)) (key : string)
    (values : list string) :
  header_lookup h key = Some values → In (key, values) h.
Proof.
  induction h as [| [k vs] rest IH]; [discriminate |].
  cbn [header_lookup].
  destruct (String.eqb_spec k key) as [-> | Hne].
  - intros [= ->]. by left.
  - intros Hrest. right. by apply IH.
Qed.

(** C6.  When a process is run, it is run once, on the resolved command,
    and its environment is the parent's environment followed by the CGI
    variables of the request, as the specification lists them.  A Cookie
    header, when there is one, shows as [HTTP_COOKIE]. *)
Theorem handler_environment
    (W : World) {Wr} `{ResponseWriter Wr} (w : Wr) (r : Request)
    (handler : HandlerConfig) (filePath : string) (logger : option Sink) :
  isExecutable W (resolveHandlerCommand W (Command handler)) = true →
  ∃ cmd,
    execs (snd (handleWithExternal W w r handler filePath logger)) = [cmd] ∧
    cmd_Path cmd = resolveHandlerCommand W (Command handler) ∧
    cmd_Env cmd = (os_Environ W ++ map Spec.setting (Spec.cgi_pairs W r filePath))%list ∧
    ∀ values, header_lookup (Header r) "Cookie" = Some values →
      In ("HTTP_COOKIE=" +:+ Spec.comma_joined values) (cmd_Env cmd).
Proof.
  intros Hexec.
  exists (handler_cmd W r handler filePath).
  rewrite handleWithExternal_events, Hexec.
  split_and!.
  - cbn [execs]. by rewrite execs_log_to.
  - reflexivity.
  - cbn [handler_cmd cmd_Env]. unfold handler_env. by rewrite cgi_vars_spec.
  - intros values Hcookie.
    cbn [handler_cmd cmd_Env]. unfold handler_env, cgi_vars.
    apply in_or_app. right.
    apply in_or_app. right.
    apply in_or_app. left.
    apply in_map_iff. exists ("Cookie", values).
    split; [reflexivity | by apply header_lookup_In].
Qed.

(** On the demo installation: [/bin/run] for [/run.cgi], with a
    multi-valued header. *)
Lemma handler_environment_witness :
  ∃ cmd,
    execs (snd (handleWithExternal Demo.world fresh_conn
                  (Demo.get "/run.cgi" [("Accept-Language", ["en"; "fr"])])
                  Demo.cgi "./public/run.cgi" None)) = [cmd] ∧
    cmd_Env cmd =
      [ "PATH=/bin"; "REQUEST_METHOD=GET"; "QUERY_STRING="; "CONTENT_TYPE=";
        "CONTENT_LENGTH="; "SCRIPT_NAME=/run.cgi"; "PATH_INFO=./public/run.cgi";
        "REMOTE_ADDR=10.0.0.1:5000"; "HTTP_ACCEPT_LANGUAGE=en,fr";
        "HTTP_HOST=localhost:80"; "SERVER_PROTOCOL=HTTP/1.1";
        "SERVER_NAME=localhost"; "SERVER_PORT=80"; "REQUEST_URI=/run.cgi" ].
Proof.
  destruct (handler_environment Demo.world fresh_conn
              (Demo.get "/run.cgi" [("Accept-Language", ["en"; "fr"])])
              Demo.cgi "./public/run.cgi" None eq_refl)
    as (cmd & Hrun & _ & Henv & _).
  exists cmd. split; [exact Hrun | exact Henv].
Defined.

(** ** The Cookie header in the environment *)

Lemma is_cookie_var_cookie (value : string) :
  is_cookie_var ("HTTP_COOKIE=" +:+ value) = true.
Proof. unfold is_cookie_var. cbn. by destruct value. Qed.

Lemma filter_header_vars_no_cookie (h : list (string * list string)) :
  (∀ name values, In (name, values) h →
     is_cookie_var (header_var (name, values)) = false) →
  List.filter is_cookie_var (map header_var h) = [].
Proof.
  induction h as [| [name values] rest IH]; intros Hother; [reflexivity |].
  cbn [map List.filter].
  rewrite (Hother name values) by (by left).
  apply IH. intros n vs Hin. apply Hother. by right.
Qed.

Lemma filter_header_vars_cookie (h : list (string * list string))
    (values : list string) :
  NoDup (map fst h) →
  header_lookup h "Cookie" = Some values →
  (∀ name vs, In (name, vs) h → name ≠ "Cookie" →
     is_cookie_var (header_var (name, vs)) = false) →
  List.filter is_cookie_var (map header_var h)
  = ["HTTP_COOKIE=" +:+ Strings.Join values ","].
Proof.
  induction h as [| [name vs] rest IH]; intros Hnodup Hlookup Hother;
    [discriminate |].
  cbn [map fst] in Hnodup. apply NoDup_cons in Hnodup as [Hfresh Hnodup].
  cbn [header_lookup] in Hlookup. cbn [map List.filter].
  destruct (String.eqb_spec name "Cookie") as [-> | Hne].
  - injection Hlookup as ->.
    change (header_var ("Cookie", values))
      with ("HTTP_COOKIE=" +:+ Strings.Join values ",").
    rewrite is_cookie_var_cookie.
    rewrite filter_header_vars_no_cookie; [reflexivity |].
    intros n vs' Hin. apply Hother; [by right |].
    intros ->. apply Hfresh. apply list_elem_of_In, in_map_iff.
    by exists ("Cookie", vs').
  - rewrite (Hother name vs) by (by left || done).
    apply IH; [done | done |].
    intros n vs' Hin. apply Hother. by right.
Qed.

(** C10, as the program has it.  When the Cookie header has a non-empty
    first value, the variables appended to the environment hold
    [HTTP_COOKIE] twice: first from the loop over the headers, with all
    values of the header joined by commas, then from the explicit
    [append], with the first value only.  The two settings are the same
    when the header has one value. *)
Theorem cookie_set_twice
    (W : World) (r : Request) (filePath : string) (v : string) (vs : list string) :
  NoDup (map fst (Header r)) →
  header_lookup (Header r) "Cookie" = Some (v :: vs) →
  v ≠ "" →
  (∀ name values, In (name, values) (Header r) → name ≠ "Cookie" →
     is_cookie_var (header_var (name, values)) = false) →
  cookie_settings W r filePath
  = ["HTTP_COOKIE=" +:+ Strings.Join (v :: vs) ","; "HTTP_COOKIE=" +:+ v] ∧
  (vs = [] → "HTTP_COOKIE=" +:+ Strings.Join (v :: vs) "," = "HTTP_COOKIE=" +:+ v).
Proof.
  intros Hnodup Hlookup Hv Hother.
  split; [| by intros ->].
  unfold cookie_settings, cgi_vars.
  rewrite !List.filter_app.
  rewrite (filter_header_vars_cookie _ _ Hnodup Hlookup Hother).
  unfold cookie_var, Header_Get. rewrite Hlookup.
  destruct (String.eqb_spec v "") as [-> | _]; [done |].
  unfold server_vars.
  destruct (net_SplitHostPort W (Host r)) as [[host port] |];
    cbn [List.filter app]; rewrite is_cookie_var_cookie; reflexivity.
Qed.

(** A request with one Cookie value and another header. *)
Lemma cookie_set_twice_witness :
  cookie_settings Demo.world
    (Demo.get "/run.cgi" [("Accept", ["text/html"]); ("Cookie", ["a=1"])])
    "./public/run.cgi"
  = ["HTTP_COOKIE=a=1"; "HTTP_COOKIE=a=1"].
Proof.
  refine (proj1 (cookie_set_twice Demo.world
            (Demo.get "/run.cgi" [("Accept", ["text/html"]); ("Cookie", ["a=1"])])
            "./public/run.cgi" "a=1" [] _ eq_refl _ _)).
  - cbn. constructor; [| constructor; [| constructor]].
    + intros Hin. inversion Hin as [| ? ? ? Hin']. inversion Hin'.
    + intros Hin. inversion Hin.
  - discriminate.
  - intros name values [Hin | [Hin | []]] Hne; injection Hin as <- <-;
      [reflexivity | done].
Defined.

(** C10 as stated fails.  With two Cookie values the two settings differ;
    with an empty first value there is one setting only. *)
Lemma cookie_set_twice_counterexample :
  let two := Demo.get "/run.cgi" [("Cookie", ["a=1"; "b=2"])] in
  let empty := Demo.get "/run.cgi" [("Cookie", [""])] in
  header_lookup (Header two) "Cookie" ≠ None ∧
  header_lookup (Header empty) "Cookie" ≠ None ∧
  (¬ ∃ v, List.filter is_cookie_var
            (cmd_Env (handler_cmd Demo.world two Demo.cgi "./public/run.cgi"))
          = ["HTTP_COOKIE=" +:+ v; "HTTP_COOKIE=" +:+ v]) ∧
  (¬ ∃ v, List.filter is_cookie_var
            (cmd_Env (handler_cmd Demo.world empty Demo.cgi "./public/run.cgi"))
          = ["HTTP_COOKIE=" +:+ v; "HTTP_COOKIE=" +:+ v]).
Proof.
  split_and!; [discriminate | discriminate | |].
  - intros [v Heq]. vm_compute in Heq. congruence.
  - intros [v Heq]. vm_compute in Heq. discriminate Heq.
Qed.

(** ** Index resolution *)

Section IndexResolution.
Variable W : World.
Context {Wr : Type} `{ResponseWriter Wr}.

(** No filename matches: every one is probed, in order, nothing is
    written and the answer is [false]. *)
Lemma tryServeIndexWithHandler_none (w : Wr) (r : Request) (dirPath : string)
    (indexes : list string) (handlers : gmap string HandlerConfig) :
  Forall (fun idx => index_matches W dirPath idx = false) indexes →
  tryServeIndexWithHandler W w r dirPath indexes handlers
  = (false, w, map (probe W dirPath) indexes).
Proof.
  induction 1 as [| idx rest Hidx Hrest IH]; [reflexivity |].
  cbn [tryServeIndexWithHandler map].
  unfold index_matches in Hidx. rewrite Hidx, IH. reflexivity.
Qed.

(** The filenames before the first match are skipped. *)
Lemma tryServeIndexWithHandler_skip (w : Wr) (r : Request) (dirPath : string)
    (pre rest : list string) (handlers : gmap string HandlerConfig) :
  Forall (fun idx => index_matches W dirPath idx = false) pre →
  tryServeIndexWithHandler W w r dirPath (pre ++ rest) handlers
  = let '(ok, w', evs) := tryServeIndexWithHandler W w r dirPath rest handlers in
    (ok, w', map (probe W dirPath) pre ++ evs).
Proof.
  induction 1 as [| idx pre' Hidx Hpre IH].
  - cbn [app map].
    by destruct (tryServeIndexWithHandler W w r dirPath rest handlers) as [[ok w'] evs].
  - cbn [app tryServeIndexWithHandler map].
    unfold index_matches in Hidx. rewrite Hidx, IH.
    by destruct (tryServeIndexWithHandler W w r dirPath rest handlers) as [[ok w'] evs].
Qed.

(** Directory enumeration plays no part in index resolution. *)
Lemma tryServeIndexWithHandler_ReadDir (readDir : string → option (list DirEntry))
    (w : Wr) (r : Request) (dirPath : string)
    (indexes : list string) (handlers : gmap string HandlerConfig) :
  tryServeIndexWithHandler (with_ReadDir readDir W) w r dirPath indexes handlers
  = tryServeIndexWithHandler W w r dirPath indexes handlers.
Proof.
  induction indexes as [| idx rest IH]; [reflexivity |].
  cbn [tryServeIndexWithHandler]. rewrite IH. reflexivity.
Qed.

End IndexResolution.

(** C7.  The index filenames are probed in configuration order; the first
    one that exists and is not a directory is selected, whatever comes
    after it and whatever the directory enumerates.  The lower-cased
    extension of the selected file is looked up in the handler map: on a
    match the external handler is invoked on the index file, otherwise the
    file is served statically. *)
Theorem index_resolution
    (W : World) {Wr} `{ResponseWriter Wr} (w : Wr) (r : Request) (dirPath : string)
    (pre : list string) (idx : string) (post : list string)
    (handlers : gmap string HandlerConfig) :
  Forall (fun i => index_matches W dirPath i = false) pre →
  index_matches W dirPath idx = true →
  let indexPath := filepath_Join W dirPath idx in
  let res := tryServeIndexWithHandler W w r dirPath (pre ++ idx :: post) handlers in
  fst (fst res) = true ∧
  stats (firstn (S (List.length pre)) (snd res))
    = map (filepath_Join W dirPath) (pre ++ [idx]) ∧
  match handlers !! Strings.ToLower (Strings.Ext indexPath) with
  | Some handler =>
      snd (fst res) = fst (handleWithExternal W w r handler indexPath None) ∧
      snd res = (map (probe W dirPath) (pre ++ [idx])
                 ++ snd (handleWithExternal W w r handler indexPath None))%list
  | None =>
      snd (fst res) = apply_ops (http_ServeFile W r indexPath) w ∧
      snd res = (map (probe W dirPath) (pre ++ [idx]) ++ [EvServeFile indexPath])%list
  end ∧
  ∀ readDir,
    tryServeIndexWithHandler (with_ReadDir readDir W) w r dirPath (pre ++ idx :: post)
      handlers = res.
Proof.
  intros Hpre Hidx indexPath res.
  assert (stats (map (probe W dirPath) (pre ++ [idx]))
          = map (filepath_Join W dirPath) (pre ++ [idx])) as Hstats.
  { induction (pre ++ [idx])%list as [| i l IH]; [reflexivity |].
    cbn. by rewrite IH. }
  assert (∀ evs, firstn (S (List.length pre)) (map (probe W dirPath) (pre ++ [idx]) ++ evs)
                 = map (probe W dirPath) (pre ++ [idx])) as Hfirst.
  { intros evs.
    replace (S (List.length pre))
      with (List.length (map (probe W dirPath) (pre ++ [idx])) + 0)%nat.
    - rewrite firstn_app_2. cbn. apply app_nil_r.
    - rewrite length_map, length_app. cbn. lia. }
  assert (∀ evs, (map (probe W dirPath) pre ++ probe W dirPath idx :: evs
                 = map (probe W dirPath) (pre ++ [idx]) ++ evs)%list) as Hshift.
  { intros evs. rewrite map_app, <- app_assoc. reflexivity. }
  split_and!.
  - subst res. rewrite (tryServeIndexWithHandler_skip W w r dirPath pre _ handlers Hpre).
    cbn [tryServeIndexWithHandler]. unfold index_matches in Hidx. rewrite Hidx.
    destruct (handlers !! _) as [handler |]; [| reflexivity].
    by destruct (handleWithExternal W w r handler _ None).
  - subst res. rewrite (tryServeIndexWithHandler_skip W w r dirPath pre _ handlers Hpre).
    cbn [tryServeIndexWithHandler]. unfold index_matches in Hidx. rewrite Hidx.
    destruct (handlers !! _) as [handler |].
    + destruct (handleWithExternal W w r handler _ None) as [w' evs].
      cbn [snd]. fold (probe W dirPath idx).
      by rewrite Hshift, Hfirst, Hstats.
    + cbn [snd]. fold (probe W dirPath idx).
      by rewrite Hshift, Hfirst, Hstats.
  - subst res. rewrite (tryServeIndexWithHandler_skip W w r dirPath pre _ handlers Hpre).
    cbn [tryServeIndexWithHandler]. unfold index_matches in Hidx. rewrite Hidx.
    fold indexPath.
    destruct (handlers !! _) as [handler |].
    + destruct (handleWithExternal W w r handler indexPath None) as [w' evs].
      cbn [fst snd]. fold (probe W dirPath idx). by rewrite Hshift.
    + cbn [fst snd]. fold (probe W dirPath idx). by rewrite Hshift.
  - intros readDir. apply tryServeIndexWithHandler_ReadDir.
Qed.

(** In [./public/app/] the first configured name, [index.html], is
    missing and the second, [index.cgi], is there. *)
Lemma index_resolution_witness :
  let res := tryServeIndexWithHandler Demo.world fresh_conn (Demo.get "/app/" [])
               "./public/app/" ["index.html"; "index.cgi"; "index.sh"]
               (Handlers Demo.config) in
  fst (fst res) = true ∧
  stats (firstn 2 (snd res)) = ["./public/app/index.html"; "./public/app/index.cgi"].
Proof.
  destruct (index_resolution Demo.world fresh_conn (Demo.get "/app/" [])
              "./public/app/" ["index.html"] "index.cgi" ["index.sh"]
              (Handlers Demo.config))
    as (Hok & Hstats & _).
  - constructor; [reflexivity | constructor].
  - reflexivity.
  - exact (conj Hok Hstats).
Defined.

(** ** The dispatcher *)

Section Dispatcher.
Variable W : World.
Context {Wr : Type} `{ResponseWriter Wr}.

(** A regular file is dispatched on the lower-cased extension of its
    path, like an index file, but with the handler logger. *)
Lemma handleRequest_regular_file (cfg : Config) (w : Wr) (r : Request)
    (stat : FileInfo) :
  let filePath := HomeDir cfg +:+ URL_Path r in
  os_Stat W filePath = Some stat →
  fi_IsDir stat = false →
  handleRequest W cfg w r =
    match Handlers cfg !! Strings.ToLower (Strings.Ext filePath) with
    | Some handler =>
        let '(ww, evs) :=
          handleWithExternal W (mkStatusWriter w 200 0) r handler filePath
            (Some HandlerSink) in
        Returned (sw_ResponseWriter ww)
          (EvStat filePath :: evs
           ++ (if (400 <=? Status ww)%Z then [logError r ww] else [])
           ++ [logAccess W r ww])
    | None =>
        let ww := apply_ops (http_ServeFile W r filePath) (mkStatusWriter w 200 0) in
        Returned (sw_ResponseWriter ww)
          [EvStat filePath; EvServeFile filePath; logAccess W r ww]
    end.
Proof.
  intros filePath Hstat Hdir.
  unfold handleRequest. fold filePath. rewrite Hstat, Hdir. reflexivity.
Qed.

(** A directory without a matching index file goes to the listing,
    rendered on the unwrapped writer. *)
Lemma handleRequest_listing (cfg : Config) (w : Wr) (r : Request) (stat : FileInfo) :
  let filePath := HomeDir cfg +:+ URL_Path r in
  os_Stat W filePath = Some stat →
  fi_IsDir stat = true →
  Forall (fun idx => index_matches W filePath idx = false) (DefaultIndexes cfg) →
  handleRequest W cfg w r =
    then_events (EvStat filePath :: map (probe W filePath) (DefaultIndexes cfg))
      (RenderDirList W w r filePath (URL_Path r)).
Proof.
  intros filePath Hstat Hdir Hnone.
  unfold handleRequest. fold filePath. rewrite Hstat, Hdir.
  rewrite (tryServeIndexWithHandler_none W _ r filePath _ _ Hnone).
  reflexivity.
Qed.

(** The listing writes no log line. *)
Lemma RenderDirList_no_log (s : Sink) (w : Wr) (r : Request) (dirPath urlPath : string) :
  log_lines s (outcome_events (RenderDirList W w r dirPath urlPath)) = [].
Proof.
  unfold RenderDirList.
  destruct (os_ReadDir W dirPath) as [files |]; [| reflexivity].
  destruct (collect_infos W files); reflexivity.
Qed.

Lemma log_lines_app (s : Sink) (evs evs' : list Event) :
  log_lines s (evs ++ evs') = log_lines s evs ++ log_lines s evs'.
Proof.
  induction evs as [| e evs IH]; [reflexivity |].
  destruct e; cbn [app log_lines]; try exact IH.
  case_bool_decide; cbn [app]; by rewrite IH.
Qed.

Lemma log_lines_probes (s : Sink) (dirPath : string) (indexes : list string) :
  log_lines s (map (probe W dirPath) indexes) = [].
Proof. induction indexes as [| idx rest IH]; [reflexivity | exact IH]. Qed.

Lemma outcome_events_then (evs : list Event) (o : Outcome Wr) :
  outcome_events (then_events evs o) = evs ++ outcome_events o.
Proof. by destruct o. Qed.

Lemma outcome_writer_then (evs : list Event) (o : Outcome Wr) :
  outcome_writer (then_events evs o) = outcome_writer o.
Proof. by destruct o. Qed.

(** So a listed directory leaves no trace in any log. *)
Lemma handleRequest_listing_no_log (s : Sink) (cfg : Config) (w : Wr) (r : Request)
    (stat : FileInfo) :
  let filePath := HomeDir cfg +:+ URL_Path r in
  os_Stat W filePath = Some stat →
  fi_IsDir stat = true →
  Forall (fun idx => index_matches W filePath idx = false) (DefaultIndexes cfg) →
  log_lines s (outcome_events (handleRequest W cfg w r)) = [].
Proof.
  intros filePath Hstat Hdir Hnone.
  rewrite (handleRequest_listing cfg w r stat Hstat Hdir Hnone).
  rewrite outcome_events_then. fold filePath.
  change (EvStat filePath :: map (probe W filePath) (DefaultIndexes cfg))
    with ([EvStat filePath] ++ map (probe W filePath) (DefaultIndexes cfg)).
  rewrite !log_lines_app, log_lines_probes, RenderDirList_no_log. reflexivity.
Qed.

End Dispatcher.

(** What a listing answers on a connection where nothing was sent yet:
    500 when the directory cannot be read, 200 otherwise. *)
Lemma RenderDirList_status (W : World) (h : gmap string (list string)) (r : Request)
    (dirPath urlPath : string) :
  let out := RenderDirList W (unsent h) r dirPath urlPath in
  conn_status (outcome_writer out) = 200%Z ∨ conn_status (outcome_writer out) = 500%Z.
Proof.
  unfold RenderDirList.
  destruct (os_ReadDir W dirPath) as [files |]; [| by right].
  destruct (collect_infos W files); by left.
Qed.

(** C2.  A request for an existing directory in which no configured index
    filename matches goes to the directory-listing renderer; what it
    answers does not depend on the configured error pages, and its status
    is 200 or 500, never the 404 of the error page. *)
Theorem directory_without_index
    (W : World) (cfg : Config) (h : gmap string (list string)) (r : Request)
    (stat : FileInfo) :
  let filePath := HomeDir cfg +:+ URL_Path r in
  os_Stat W filePath = Some stat →
  fi_IsDir stat = true →
  Forall (fun idx => index_matches W filePath idx = false) (DefaultIndexes cfg) →
  let out := handleRequest W cfg (unsent h) r in
  out = then_events (EvStat filePath :: map (probe W filePath) (DefaultIndexes cfg))
          (RenderDirList W (unsent h) r filePath (URL_Path r)) ∧
  (∀ pages, handleRequest W (with_Pages pages cfg) (unsent h) r = out) ∧
  conn_status (outcome_writer out) ≠ 404%Z ∧
  reads (outcome_events out) = match os_ReadDir W filePath with
                               | Some files =>
                                   match collect_infos W files with
                                   | Some _ => [tmplPath]
                                   | None => []
                                   end
                               | None => []
                               end.
Proof.
  intros filePath Hstat Hdir Hnone out. subst out.
  rewrite (handleRequest_listing W cfg (unsent h) r stat Hstat Hdir Hnone).
  fold filePath.
  split_and!.
  - reflexivity.
  - intros pages.
    by rewrite (handleRequest_listing W (with_Pages pages cfg) (unsent h) r stat
                  Hstat Hdir Hnone).
  - rewrite outcome_writer_then.
    destruct (RenderDirList_status W h r filePath (URL_Path r)) as [-> | ->]; lia.
  - rewrite outcome_events_then.
    assert (∀ l evs, reads (EvStat filePath :: map (probe W filePath) l ++ evs)
                     = reads evs) as Hreads.
    { intros l evs. cbn [reads]. induction l as [| i l IH]; [reflexivity | exact IH]. }
    rewrite <- app_comm_cons, Hreads.
    unfold RenderDirList.
    destruct (os_ReadDir W filePath) as [files |]; [| reflexivity].
    destruct (collect_infos W files); reflexivity.
Qed.

(** [./public/sub/] holds no index file. *)
Lemma directory_without_index_witness :
  let out := handleRequest Demo.world Demo.config (unsent ∅) (Demo.get "/sub/" []) in
  (∀ pages,
     handleRequest Demo.world (with_Pages pages Demo.config) (unsent ∅)
       (Demo.get "/sub/" []) = out) ∧
  conn_status (outcome_writer out) ≠ 404%Z.
Proof.
  destruct (directory_without_index Demo.world Demo.config ∅ (Demo.get "/sub/" [])
              (mkFileInfo true 2147484141 0 0))
    as (_ & Hpages & Hstatus & _).
  - reflexivity.
  - reflexivity.
  - repeat constructor.
  - exact (conj Hpages Hstatus).
Defined.

(** C1 fails on the directory branch and on the error-log side of the
    index and static branches.  [/sub/] is listed with status 200 and
    [/locked/] answers 500: neither writes an access-log or error-log
    line, the listing being rendered on the unwrapped writer.  [/old/]
    reaches a handler through its index file and answers 500: the
    access-log line is there, the error-log line is not.  The top-level
    file [/run.cgi] and the missing [/nothing] behave as C1 says. *)
Theorem logging_per_branch :
  let serve path := handleRequest Demo.world Demo.config fresh_conn (Demo.get path []) in
  let lines s path := List.length (log_lines s (outcome_events (serve path))) in
  let status path := conn_status (outcome_writer (serve path)) in
  (status "/sub/" = 200%Z ∧ lines AccessSink "/sub/" = 0%nat) ∧
  (status "/locked/" = 500%Z ∧ lines AccessSink "/locked/" = 0%nat
     ∧ lines ErrorSink "/locked/" = 0%nat) ∧
  (status "/old/" = 500%Z ∧ lines AccessSink "/old/" = 1%nat
     ∧ lines ErrorSink "/old/" = 0%nat) ∧
  (status "/run.cgi" = 200%Z ∧ lines AccessSink "/run.cgi" = 1%nat
     ∧ lines ErrorSink "/run.cgi" = 0%nat) ∧
  (status "/nothing" = 404%Z ∧ lines AccessSink "/nothing" = 1%nat
     ∧ lines ErrorSink "/nothing" = 1%nat).
Proof. vm_compute. repeat split. Qed.

(** ** The directory listing *)

(** *** Byte-wise order on strings *)

Lemma ascii_compare_refl (c : ascii) : Ascii.compare c c = Eq.
Proof. unfold Ascii.compare. apply N.compare_refl. Qed.

Lemma ascii_compare_lt_trans (a b c : ascii) :
  Ascii.compare a b = Lt → Ascii.compare b c = Lt → Ascii.compare a c = Lt.
Proof.
  unfold Ascii.compare. rewrite !N.compare_lt_iff. apply N.lt_trans.
Qed.

Lemma string_compare_lt_trans (a b c : string) :
  String.compare a b = Lt → String.compare b c = Lt → String.compare a c = Lt.
Proof.
  revert b c.
  induction a as [| x a IH]; intros [| y b] [| z c]; cbn; try done.
  destruct (Ascii.compare x y) eqn:Hxy; [| | done].
  - apply Ascii.compare_eq_iff in Hxy as ->.
    destruct (Ascii.compare y z); [apply IH | done | done].
  - destruct (Ascii.compare y z) eqn:Hyz; [| | done].
    + apply Ascii.compare_eq_iff in Hyz as <-. by rewrite Hxy.
    + by rewrite (ascii_compare_lt_trans x y z Hxy Hyz).
Qed.

Lemma string_ltb_asym (a b : string) :
  String.ltb a b = true → String.ltb b a = false.
Proof.
  unfold String.ltb. rewrite (String.compare_antisym a b).
  by destruct (String.compare b a).
Qed.

Lemma string_leb_ltb (a b : string) :
  String.leb a b = true ↔ String.ltb b a = false.
Proof.
  unfold String.leb, String.ltb. rewrite (String.compare_antisym a b).
  by destruct (String.compare b a).
Qed.

Lemma string_leb_trans (a b c : string) :
  String.leb a b = true → String.leb b c = true → String.leb a c = true.
Proof.
  unfold String.leb.
  destruct (String.compare a b) eqn:Hab; [| | done].
  - by apply String.compare_eq_iff in Hab as ->.
  - destruct (String.compare b c) eqn:Hbc; [| | done].
    + apply String.compare_eq_iff in Hbc as <-. by rewrite Hab.
    + by rewrite (string_compare_lt_trans a b c Hab Hbc).
Qed.

(** *** The sort *)

Section SortProperties.
Context {A : Type} (less : A → A → bool) (le : A → A → Prop).
Hypothesis le_of_not_less : ∀ x y, less y x = false → le x y.
Hypothesis le_of_less : ∀ x y, less x y = true → le x y.
Hypothesis le_trans : ∀ x y z, le x y → le y z → le x z.

Lemma insert_sorted_perm (x : A) (l : list A) :
  Permutation (insert_sorted less x l) (x :: l).
Proof.
  induction l as [| y t IH]; cbn; [reflexivity |].
  destruct (less y x); [| reflexivity].
  rewrite IH. apply perm_swap.
Qed.

Lemma sort_Slice_perm (l : list A) : Permutation (sort_Slice less l) l.
Proof.
  induction l as [| x t IH]; cbn; [reflexivity |].
  rewrite insert_sorted_perm. by constructor.
Qed.

Lemma insert_sorted_sorted (x : A) (l : list A) :
  StronglySorted le l → StronglySorted le (insert_sorted less x l).
Proof.
  induction 1 as [| y t Hsorted IH Hall]; cbn.
  - repeat constructor.
  - destruct (less y x) eqn:Hless.
    + constructor; [exact IH |].
      eapply Permutation_Forall; [symmetry; apply insert_sorted_perm |].
      constructor; [by apply le_of_less | exact Hall].
    + constructor; [by constructor |].
      constructor; [by apply le_of_not_less |].
      eapply Forall_impl; [exact Hall |].
      intros z Hyz. eapply le_trans; [by apply le_of_not_less | exact Hyz].
Qed.

Lemma sort_Slice_sorted (l : list A) : StronglySorted le (sort_Slice less l).
Proof.
  induction l as [| x t IH]; cbn; [constructor | by apply insert_sorted_sorted].
Qed.
End SortProperties.

Lemma sort_by_name_sorted (infos : list fileInfo) :
  StronglySorted name_le (sort_Slice name_less infos).
Proof.
  apply sort_Slice_sorted; unfold name_le, name_less.
  - intros x y Hless. by apply string_leb_ltb.
  - intros x y Hless. by apply string_leb_ltb, string_ltb_asym.
  - intros x y z. apply string_leb_trans.
Qed.

(** *** The entries collected *)

Lemma collect_infos_Some (W : World) (files : list DirEntry) :
  Forall (fun f => de_Info f ≠ None) files →
  ∃ infos, collect_infos W files = Some infos ∧ map listed_as infos = map entry_of files.
Proof.
  induction 1 as [| f rest Hinfo Hrest (infos & Hcollect & Hnames)].
  - by exists [].
  - cbn [collect_infos]. destruct (de_Info f) as [info |]; [| done].
    rewrite Hcollect. eexists. split; [reflexivity |].
    cbn [map]. by rewrite Hnames.
Qed.

Lemma collect_infos_None (W : World) (files : list DirEntry) :
  Exists (fun f => de_Info f = None) files → collect_infos W files = None.
Proof.
  induction 1 as [f rest Hinfo | f rest Hrest IH]; cbn [collect_infos].
  - by rewrite Hinfo.
  - rewrite IH. by destruct (de_Info f).
Qed.

Lemma load_template_builtin (W : World) :
  parsed_template W = None → load_template W = builtin_template W.
Proof.
  unfold parsed_template, load_template.
  destruct (os_ReadFile W tmplPath) as [content |]; [| done].
  by intros ->.
Qed.

(** C8.  When every entry's metadata can be read, the renderer reads the
    directory once and executes the template on the entries of that one
    read: each child once with its directory flag, nothing else, ordered
    by name ascending byte-wise.  The built-in template renders each of
    them as one link whose text and whose href both end in a slash
    exactly when the entry is a directory. *)
Theorem directory_listing
    (W : World) {Wr} `{ResponseWriter Wr} (w : Wr) (r : Request)
    (dirPath urlPath : string) (files : list DirEntry) :
  os_ReadDir W dirPath = Some files →
  Forall (fun f => de_Info f ≠ None) files →
  ∃ listed,
    let data := mkDirData urlPath listed (template_URLQueryEscaper W urlPath) in
    RenderDirList W w r dirPath urlPath
      = Returned (fst (Write (load_template W data) w))
          [EvReadDir dirPath; EvReadFile tmplPath] ∧
    Permutation (map listed_as listed) (map entry_of files) ∧
    StronglySorted name_le listed ∧
    (parsed_template W = None →
     load_template W data =
       "<html><head><title>Index of " +:+ esc_rcdata W urlPath
       +:+ "</title></head><body><h1>Index of " +:+ esc_html W urlPath
       +:+ "</h1><ul>"
       +:+ String.concat ""
             (map (fun i =>
                     "<li><a href=" +:+ dq
                     +:+ esc_url_start W (template_URLQueryEscaper W urlPath)
                     +:+ esc_url_part W (Name i) +:+ (if IsDir i then "/" else "")
                     +:+ dq +:+ ">"
                     +:+ esc_html W (Name i) +:+ (if IsDir i then "/" else "")
                     +:+ "</a></li>")
                  listed)
       +:+ "</ul></body></html>").
Proof.
  intros Hread Hinfos.
  destruct (collect_infos_Some W files Hinfos) as (infos & Hcollect & Hnames).
  exists (sort_Slice name_less infos). cbv zeta.
  split_and!.
  - unfold RenderDirList. by rewrite Hread, Hcollect.
  - rewrite <- Hnames. apply Permutation_map, sort_Slice_perm.
  - apply sort_by_name_sorted.
  - intros Hbuiltin. by rewrite (load_template_builtin W Hbuiltin).
Qed.

(** [./public/sub/] with its three children. *)
Lemma directory_listing_witness :
  ∃ listed,
    RenderDirList Demo.world fresh_conn (Demo.get "/sub/" []) "./public/sub/" "/sub/"
      = Returned (fst (Write (load_template Demo.world (mkDirData "/sub/" listed "/sub/"))
                         fresh_conn))
          [EvReadDir "./public/sub/"; EvReadFile tmplPath] ∧
    Permutation (map listed_as listed) [("b.txt", false); ("a", true); ("c", false)] ∧
    StronglySorted name_le listed ∧
    load_template Demo.world (mkDirData "/sub/" listed "/sub/") =
      "<html><head><title>Index of /sub/</title></head><body><h1>Index of /sub/</h1><ul>"
      +:+ String.concat ""
            (map (fun i =>
                    "<li><a href=" +:+ dq +:+ "/sub/" +:+ Name i
                    +:+ (if IsDir i then "/" else "") +:+ dq +:+ ">"
                    +:+ Name i +:+ (if IsDir i then "/" else "") +:+ "</a></li>")
                 listed)
      +:+ "</ul></body></html>".
Proof.
  destruct (directory_listing Demo.world fresh_conn (Demo.get "/sub/" [])
              "./public/sub/" "/sub/"
              [ mkDirEntry "b.txt" false (Demo.regular 420);
                mkDirEntry "a" true Demo.directory;
                mkDirEntry "c" false (Demo.regular 420) ])
    as (listed & Hrender & Hperm & Hsorted & Hbuiltin).
  - reflexivity.
  - repeat constructor; discriminate.
  - exists listed.
    exact (conj Hrender (conj Hperm (conj Hsorted (Hbuiltin eq_refl)))).
Defined.

(** What the client gets for [/sub/]: the directory [a] with its slash
    first, then the two files. *)
Example listing_of_sub :
  c_body (outcome_writer
            (handleRequest Demo.world Demo.config fresh_conn (Demo.get "/sub/" [])))
  = "<html><head><title>Index of /sub/</title></head><body><h1>Index of /sub/</h1><ul>"
    +:+ "<li><a href=" +:+ dq +:+ "/sub/a/" +:+ dq +:+ ">a/</a></li>"
    +:+ "<li><a href=" +:+ dq +:+ "/sub/b.txt" +:+ dq +:+ ">b.txt</a></li>"
    +:+ "<li><a href=" +:+ dq +:+ "/sub/c" +:+ dq +:+ ">c</a></li>"
    +:+ "</ul></body></html>".
Proof. reflexivity. Qed.

(** *** When an entry's metadata cannot be read *)

(** The renderer panics before anything is written. *)
Lemma RenderDirList_panics (W : World) {Wr} `{ResponseWriter Wr} (w : Wr) (r : Request)
    (dirPath urlPath : string) (files : list DirEntry) :
  os_ReadDir W dirPath = Some files →
  Exists (fun f => de_Info f = None) files →
  RenderDirList W w r dirPath urlPath = Panicked w [EvReadDir dirPath].
Proof.
  intros Hread Hmissing. unfold RenderDirList.
  by rewrite Hread, (collect_infos_None W files Hmissing).
Qed.

(** C9 fails.  In [./public/gone/] the entry [vanished] has no metadata
    any more: the renderer dereferences the nil [info] and panics; no
    response is written, for the renderer alone and for the whole
    request. *)
Theorem directory_listing_panics :
  RenderDirList Demo.world fresh_conn (Demo.get "/gone/" []) "./public/gone/" "/gone/"
    = Panicked fresh_conn [EvReadDir "./public/gone/"] ∧
  returned (handleRequest Demo.world Demo.config fresh_conn (Demo.get "/gone/" [])) = false ∧
  outcome_writer (handleRequest Demo.world Demo.config fresh_conn (Demo.get "/gone/" []))
    = fresh_conn.
Proof. split_and!; reflexivity. Qed.

(** ** The older revision

    Where main.go answers differently on the demo installation. *)

(** A directory without an index file gets the 404 page, and both log
    lines. *)
Example legacy_directory_without_index :
  let out := Legacy.handleRequest Demo.world Demo.config fresh_conn (Demo.get "/sub/" []) in
  conn_status (outcome_writer out) = 404%Z ∧
  c_body (outcome_writer out) = "404 page not found" ∧
  List.length (log_lines AccessSink (outcome_events out)) = 1%nat ∧
  List.length (log_lines ErrorSink (outcome_events out)) = 1%nat.
Proof. vm_compute. repeat split. Qed.

(** The child gets the parent environment alone. *)
Example legacy_environment :
  map cmd_Env
    (execs (snd (Legacy.handleWithExternal Demo.world fresh_conn
                   (Demo.get "/run.cgi" [("Cookie", ["a=1"])])
                   Demo.cgi "./public/run.cgi" None)))
  = [["PATH=/bin"]].
Proof. reflexivity. Qed.

(** A failing child: an error message, then its standard output; the
    program above writes the combined output and nothing else. *)
Example legacy_failing_child :
  let failing := mkHandler "/bin/run2" [] in
  let W := with_ReadDir (fun _ => None)
             {| os_Stat := fun _ => Demo.regular 493;
                os_ReadFile := os_ReadFile Demo.world;
                os_ReadDir := os_ReadDir Demo.world;
                os_Environ := os_Environ Demo.world;
                filepath_IsAbs := filepath_IsAbs Demo.world;
                filepath_Abs := filepath_Abs Demo.world;
                filepath_Join := filepath_Join Demo.world;
                net_SplitHostPort := net_SplitHostPort Demo.world;
                url_RequestURI := url_RequestURI Demo.world;
                time_Now := time_Now Demo.world;
                time_Format := time_Format Demo.world;
                exec_Run := fun _ => mkProc "out" "out and err" (Exited 2);
                http_ServeFile := http_ServeFile Demo.world;
                template_Parse := template_Parse Demo.world;
                template_URLQueryEscaper := template_URLQueryEscaper Demo.world;
                esc_rcdata := esc_rcdata Demo.world;
                esc_html := esc_html Demo.world;
                esc_url_start := esc_url_start Demo.world;
                esc_url_part := esc_url_part Demo.world |} in
  c_body (fst (Legacy.handleWithExternal W fresh_conn (Demo.get "/x" []) failing "/x" None))
    = "Handler error: exit status 2out" ∧
  c_body (fst (handleWithExternal W fresh_conn (Demo.get "/x" []) failing "/x" None))
    = "out and err".
Proof. vm_compute. split; reflexivity. Qed.

(** * Further properties *)

(** ** StatusWriter *)

Lemma len_append (a b : string) :
  Strings.len (a +:+ b) = (Strings.len a + Strings.len b)%Z.
Proof.
  unfold Strings.len.
  induction a as [| c a IH].
  - reflexivity.
  - change (String c a +:+ b) with (String c (a +:+ b)).
    cbn [String.length]. rewrite !Nat2Z.inj_succ, IH. lia.
Qed.

Lemma apply_ops_inner {Wr} `{ResponseWriter Wr}
    (ops : list WriterOp) (ww : StatusWriter Wr) :
  sw_ResponseWriter (apply_ops ops ww) = apply_ops ops (sw_ResponseWriter ww).
Proof.
  revert ww. induction ops as [| op ops IH]; intros ww; [reflexivity |].
  unfold apply_ops in *. cbn [fold_left]. rewrite IH. f_equal.
  destruct op as [k v | code | data]; cbn [apply_op].
  - reflexivity.
  - reflexivity.
  - apply StatusWriter_Write_inner.
Qed.

(** X1.  The wrapper is transparent: after any sequence of calls made
    through it, the writer inside is exactly what the same calls would
    have made of it directly, and reading a header through the wrapper
    reads the writer inside. *)
Theorem StatusWriter_transparent {Wr} `{ResponseWriter Wr}
    (ops : list WriterOp) (ww : StatusWriter Wr) :
  sw_ResponseWriter (apply_ops ops ww) = apply_ops ops (sw_ResponseWriter ww) ∧
  ∀ key, HeaderGet (apply_ops ops ww) key = HeaderGet (apply_ops ops (sw_ResponseWriter ww)) key.
Proof.
  split; [apply apply_ops_inner |].
  intros key. cbn [HeaderGet StatusWriter_writer]. unfold StatusWriter_HeaderGet.
  by rewrite apply_ops_inner.
Qed.

Lemma conn_WriteHeader_body (code : Z) (c : Conn) :
  c_body (conn_WriteHeader code c) = c_body c.
Proof. unfold conn_WriteHeader. by destruct (c_wrote c). Qed.

Lemma conn_Write_body (data : string) (c : Conn) :
  Strings.len (c_body (fst (conn_Write data c)))
  = (Strings.len (c_body c) + snd (conn_Write data c))%Z.
Proof.
  unfold conn_Write, conn_WriteHeader.
  destruct (c_wrote c) as [[status sent] |] eqn:Hwrote; cbn [c_wrote].
  - rewrite Hwrote.
    destruct (bodyAllowedForStatus status); cbn [fst snd c_body].
    + apply len_append.
    + lia.
  - cbn [bodyAllowedForStatus fst snd c_body]. apply len_append.
Qed.

Lemma StatusWriter_counts_body_aux (ops : list WriterOp) (ww : StatusWriter Conn) :
  (Bytes (apply_ops ops ww) - Bytes ww
   = Strings.len (c_body (sw_ResponseWriter (apply_ops ops ww)))
     - Strings.len (c_body (sw_ResponseWriter ww)))%Z.
Proof.
  revert ww. induction ops as [| op ops IH]; intros ww; [cbn; lia |].
  unfold apply_ops in *. cbn [fold_left].
  specialize (IH (apply_op ww op)).
  destruct op as [k v | code | data]; cbn [apply_op] in *.
  - exact IH.
  - cbn [WriteHeader StatusWriter_writer StatusWriter_WriteHeader Bytes sw_ResponseWriter
           Conn_writer] in IH.
    unfold StatusWriter_WriteHeader in IH. cbn [Bytes sw_ResponseWriter] in IH.
    by rewrite conn_WriteHeader_body in IH.
  - pose proof (conn_Write_body data (sw_ResponseWriter ww)) as Hbody.
    pose proof (StatusWriter_Write_fields data ww) as [_ Hbytes].
    pose proof (StatusWriter_Write_inner data ww) as Hinner.
    cbn [Write Conn_writer] in Hbytes, Hinner.
    rewrite Hinner in IH. lia.
Qed.


Lemma apply_ops_status {Wr} `{ResponseWriter Wr}
    (ops : list WriterOp) (ww : StatusWriter Wr) :
  Status (apply_ops ops ww) = last_code (Status ww) ops.
Proof.
  revert ww. induction ops as [| op ops IH]; intros ww; [reflexivity |].
  unfold apply_ops, last_code in *. cbn [fold_left]. rewrite IH. f_equal.
  destruct op as [k v | code | data]; cbn [apply_op]; try reflexivity.
  apply StatusWriter_Write_fields.
Qed.

(** X3.  [Status] is the code of the last [WriteHeader] made through the
    wrapper, and the value it was created with when there was none; calls
    that set no status leave it alone. *)
Theorem StatusWriter_last_status {Wr} `{ResponseWriter Wr}
    (ops : list WriterOp) (ww : StatusWriter Wr) :
  Status (apply_ops ops ww) = last_code (Status ww) ops ∧
  (∀ pre code post, ops = pre ++ OpWriteHeader code :: post →
     forallb (fun op => negb (is_WriteHeader op)) post = true →
     Status (apply_ops ops ww) = code) ∧
  (forallb (fun op => negb (is_WriteHeader op)) ops = true →
     Status (apply_ops ops ww) = Status ww).
Proof.
  split_and!.
  - apply apply_ops_status.
  - intros pre code post -> Hpost.
    rewrite apply_ops_status. unfold last_code. rewrite fold_left_app. cbn [fold_left].
    revert Hpost. generalize code. clear.
    induction post as [| op post IH]; intros code Hpost; [reflexivity |].
    cbn [forallb] in Hpost. apply andb_prop in Hpost as [Hop Hpost].
    cbn [fold_left]. destruct op; try discriminate Hop; by apply IH.
  - intros Hnone. rewrite apply_ops_status.
    revert Hnone. generalize (Status ww). clear.
    induction ops as [| op ops IH]; intros init Hnone; [reflexivity |].
    cbn [forallb] in Hnone. apply andb_prop in Hnone as [Hop Hnone].
    unfold last_code in *. cbn [fold_left]. destruct op; try discriminate Hop; by apply IH.
Qed.






(** Without that discipline the two part: a [WriteHeader] after a write is
    recorded by the wrapper and ignored by the connection. *)
Example late_status_is_recorded_not_sent :
  let ww := apply_ops [OpWrite "partial"; OpWriteHeader 500] (wrapped ∅) in
  Status ww = 500%Z ∧ conn_status (sw_ResponseWriter ww) = 200%Z.
Proof. split; reflexivity. Qed.

(** ** serveErrorPage *)

Lemma conn_Write_after (h : gmap string (list string)) (code : Z) (data : string) :
  bodyAllowedForStatus code = true →
  conn_Write data (conn_WriteHeader code (unsent h))
  = (mkConn h (Some (code, h)) data, Strings.len data).
Proof.
  intros Hallowed. unfold conn_Write, conn_WriteHeader, unsent.
  cbn [c_wrote c_header c_body]. by rewrite Hallowed.
Qed.

Lemma serveErrorPage_wrapped
    (W : World) (h : gmap string (list string)) (init code : Z)
    (pagePath defaultMsg : string) :
  bodyAllowedForStatus code = true →
  serveErrorPage W (mkStatusWriter (unsent h) init 0) code pagePath defaultMsg
  = (mkStatusWriter (mkConn h (Some (code, h)) (error_body W pagePath defaultMsg)) code
       (Strings.len (error_body W pagePath defaultMsg)),
     if String.eqb pagePath "" then [] else [EvReadFile pagePath]).
Proof.
  intros Hallowed. unfold serveErrorPage, error_body.
  assert (∀ data,
    fst (Write data (WriteHeader code (mkStatusWriter (unsent h) init 0)))
    = mkStatusWriter (mkConn h (Some (code, h)) data) code (Strings.len data)) as Hwrite.
  { intros data.
    cbn [Write WriteHeader StatusWriter_writer].
    unfold StatusWriter_Write, StatusWriter_WriteHeader.
    cbn [sw_ResponseWriter Status Bytes].
    change (Write data (WriteHeader code (unsent h)))
      with (conn_Write data (conn_WriteHeader code (unsent h))).
    by rewrite (conn_Write_after h code data Hallowed). }
  destruct (String.eqb pagePath "").
  - by rewrite Hwrite.
  - destruct (os_ReadFile W pagePath) as [data |]; by rewrite Hwrite.
Qed.



(** ** isExecutable *)

(** X6.  A path passes the check exactly when it can be stat'ed and has
    the execute bit set for the owner, the group or the others; whether
    it is a directory plays no part. *)
Theorem isExecutable_true (W : World) (path : string) :
  isExecutable W path = true ↔
  ∃ info, os_Stat W path = Some info ∧
    (Z.testbit (fi_Mode info) 0 = true ∨ Z.testbit (fi_Mode info) 3 = true
     ∨ Z.testbit (fi_Mode info) 6 = true).
Proof.
  split.
  - intros Hexec.
    destruct (os_Stat W path) as [info |] eqn:Hstat.
    + exists info. split; [reflexivity |].
      destruct (Z.testbit (fi_Mode info) 0) eqn:H0; [by left |].
      destruct (Z.testbit (fi_Mode info) 3) eqn:H3; [by right; left |].
      destruct (Z.testbit (fi_Mode info) 6) eqn:H6; [by right; right |].
      assert (isExecutable W path = false) as Hfalse.
      { apply isExecutable_false. right. exists info. by repeat split. }
      congruence.
    + unfold isExecutable in Hexec. by rewrite Hstat in Hexec.
  - intros (info & Hstat & Hbit).
    destruct (isExecutable W path) eqn:Hexec; [reflexivity |].
    apply isExecutable_false in Hexec as [Hnone | (info' & Hstat' & H0 & H3 & H6)].
    + congruence.
    + assert (info' = info) as -> by congruence.
      destruct Hbit as [Hbit | [Hbit | Hbit]]; congruence.
Qed.

(** ** The arguments of the command *)

Lemma append_empty_r (s : string) : s +:+ "" = s.
Proof.
  induction s as [| c s IH]; [reflexivity |].
  change (String c s +:+ "") with (String c (s +:+ "")). by rewrite IH.
Qed.

(** A template in which the first byte of [old] does not occur is left
    as it is. *)
Lemma ReplaceAll_absent (o : ascii) (old new s : string) :
  o ∉ bytes_of s → Strings.ReplaceAll s (String o old) new = s.
Proof.
  unfold Strings.ReplaceAll, bytes_of.
  induction s as [| c s IH]; intros Habsent; [reflexivity |].
  cbn [list_ascii_of_string] in Habsent.
  apply not_elem_of_cons in Habsent as [Hne Habsent].
  cbn [Strings.replace_from String.prefix].
  destruct (ascii_dec o c) as [-> | _]; [done |].
  by rewrite IH.
Qed.

Lemma lookup_map {A B} (f : A → B) (l : list A) (i : nat) :
  map f l !! i = f <$> l !! i.
Proof.
  revert i. induction l as [| x l IH]; intros [| i]; try reflexivity.
  apply IH.
Qed.

(** X7.  The arguments handed to the command are the configured
    templates, as many and in the same order; a template without an
    opening brace is passed as it is, and a template that is exactly
    [{filepath}] becomes the file path, which is not scanned again. *)
Theorem substitute_arguments (handler : HandlerConfig) (filePath : string) :
  List.length (substitute handler filePath) = List.length (Args handler) ∧
  (∀ i arg, Args handler !! i = Some arg → "{"%char ∉ bytes_of arg →
     substitute handler filePath !! i = Some arg) ∧
  (∀ i, Args handler !! i = Some "{filepath}" →
     substitute handler filePath !! i = Some filePath).
Proof.
  unfold substitute. split_and!.
  - apply length_map.
  - intros i arg Hi Hbrace.
    rewrite lookup_map, Hi. cbn. f_equal. by apply ReplaceAll_absent.
  - intros i Hi.
    rewrite lookup_map, Hi. cbn. f_equal. apply append_empty_r.
Qed.

(** ** What a request runs *)

Lemma execs_app (evs evs' : list Event) : execs (evs ++ evs') = execs evs ++ execs evs'.
Proof.
  induction evs as [| e evs IH]; [reflexivity |].
  destruct e; cbn [app execs]; by rewrite ?IH.
Qed.

Lemma execs_probes (W : World) (dirPath : string) (indexes : list string) :
  execs (map (probe W dirPath) indexes) = [].
Proof. induction indexes as [| idx rest IH]; [reflexivity | exact IH]. Qed.

Lemma execs_handleWithExternal (W : World) {Wr} `{ResponseWriter Wr}
    (w : Wr) (r : Request) (handler : HandlerConfig) (filePath : string)
    (logger : option Sink) :
  execs (snd (handleWithExternal W w r handler filePath logger))
  = if isExecutable W (resolveHandlerCommand W (Command handler))
    then [handler_cmd W r handler filePath] else [].
Proof.
  rewrite handleWithExternal_events.
  destruct (isExecutable W _); cbn [execs]; by rewrite execs_log_to.
Qed.

Lemma execs_RenderDirList (W : World) {Wr} `{ResponseWriter Wr}
    (w : Wr) (r : Request) (dirPath urlPath : string) :
  execs (outcome_events (RenderDirList W w r dirPath urlPath)) = [].
Proof.
  unfold RenderDirList.
  destruct (os_ReadDir W dirPath) as [files |]; [| reflexivity].
  destruct (collect_infos W files); reflexivity.
Qed.

Lemma execs_tryServeIndexWithHandler (W : World) {Wr} `{ResponseWriter Wr}
    (w : Wr) (r : Request) (dirPath : string) (indexes : list string)
    (handlers : gmap string HandlerConfig) :
  let cmds := execs (snd (tryServeIndexWithHandler W w r dirPath indexes handlers)) in
  cmds = [] ∨
  ∃ ext handler idx,
    handlers !! ext = Some handler ∧
    isExecutable W (resolveHandlerCommand W (Command handler)) = true ∧
    In idx indexes ∧
    cmds = [handler_cmd W r handler (filepath_Join W dirPath idx)].
Proof.
  cbv zeta. induction indexes as [| idx rest IH]; [by left |].
  cbn [tryServeIndexWithHandler].
  destruct (match os_Stat W (filepath_Join W dirPath idx) with
            | Some stat => negb (fi_IsDir stat)
            | None => false
            end).
  - destruct (handlers !! Strings.ToLower (Strings.Ext (filepath_Join W dirPath idx)))
      as [handler |] eqn:Hlookup; [| by left].
    pose proof (execs_handleWithExternal W w r handler (filepath_Join W dirPath idx) None)
      as Hexecs.
    destruct (handleWithExternal W w r handler (filepath_Join W dirPath idx) None)
      as [w' evs].
    cbn [snd execs] in Hexecs |- *. rewrite Hexecs.
    destruct (isExecutable W (resolveHandlerCommand W (Command handler))) eqn:Hexec;
      [| by left].
    right. exists (Strings.ToLower (Strings.Ext (filepath_Join W dirPath idx))), handler, idx.
    split_and!; [done | done | by left | done].
  - destruct (tryServeIndexWithHandler W w r dirPath rest handlers) as [[b w'] evs].
    cbn [snd execs] in IH |- *.
    destruct IH as [Hnone | (ext & handler & idx' & Hlookup & Hexec & Hin & Hcmds)];
      [by left |].
    right. exists ext, handler, idx'. split_and!; [done | done | by right | done].
Qed.

Lemma execs_handleRequest (W : World) {Wr} `{ResponseWriter Wr}
    (cfg : Config) (w : Wr) (r : Request) :
  let cmds := execs (outcome_events (handleRequest W cfg w r)) in
  cmds = [] ∨ runs_handler W cfg r cmds.
Proof.
  cbv zeta. unfold handleRequest.
  destruct (os_Stat W (HomeDir cfg +:+ URL_Path r)) as [stat |].
  - destruct (fi_IsDir stat).
    + pose proof (execs_tryServeIndexWithHandler W (mkStatusWriter w 200 0) r
                    (HomeDir cfg +:+ URL_Path r) (DefaultIndexes cfg) (Handlers cfg))
        as Hindex.
      destruct (tryServeIndexWithHandler W (mkStatusWriter w 200 0) r
                  (HomeDir cfg +:+ URL_Path r) (DefaultIndexes cfg) (Handlers cfg))
        as [[ok ww] evs].
      cbn [snd] in Hindex.
      assert (execs (outcome_events
                (if ok
                 then Returned (sw_ResponseWriter ww)
                        (EvStat (HomeDir cfg +:+ URL_Path r) :: evs ++ [logAccess W r ww])
                 else then_events (EvStat (HomeDir cfg +:+ URL_Path r) :: evs)
                        (RenderDirList W (sw_ResponseWriter ww) r
                           (HomeDir cfg +:+ URL_Path r) (URL_Path r))))
              = execs evs) as ->.
      { destruct ok.
        - cbn [outcome_events execs]. rewrite execs_app. cbn [execs]. apply app_nil_r.
        - rewrite outcome_events_then. cbn [app execs].
          rewrite execs_app, execs_RenderDirList. apply app_nil_r. }
      destruct Hindex as [Hnone | (ext & handler & idx & Hlookup & Hexec & Hin & Hcmds)];
        [by left |].
      right. exists ext, handler, (filepath_Join W (HomeDir cfg +:+ URL_Path r) idx).
      split_and!; [done | done | right; by exists idx | done].
    + destruct (Handlers cfg !! Strings.ToLower (Strings.Ext (HomeDir cfg +:+ URL_Path r)))
        as [handler |] eqn:Hlookup; [| by left].
      pose proof (execs_handleWithExternal W (mkStatusWriter w 200 0) r handler
                    (HomeDir cfg +:+ URL_Path r) (Some HandlerSink)) as Hexecs.
      destruct (handleWithExternal W (mkStatusWriter w 200 0) r handler
                  (HomeDir cfg +:+ URL_Path r) (Some HandlerSink)) as [ww evs].
      cbn [snd outcome_events execs] in Hexecs |- *.
      rewrite !execs_app, Hexecs.
      assert (execs (if (400 <=? Status ww)%Z then [logError r ww] else []) = []) as ->
        by (by destruct (400 <=? Status ww)%Z).
      cbn [execs app]. rewrite app_nil_r.
      destruct (isExecutable W (resolveHandlerCommand W (Command handler))) eqn:Hexec;
        [| by left].
      right. exists (Strings.ToLower (Strings.Ext (HomeDir cfg +:+ URL_Path r))), handler,
               (HomeDir cfg +:+ URL_Path r).
      split_and!; [done | done | by left | done].
  - left. unfold serveErrorPage.
    destruct (String.eqb (NotFound (Pages cfg)) ""); [reflexivity |].
    destruct (os_ReadFile W (NotFound (Pages cfg))); reflexivity.
Qed.

(** X8.  A request runs at most one process. *)
Theorem one_process_per_request (W : World) {Wr} `{ResponseWriter Wr}
    (cfg : Config) (w : Wr) (r : Request) :
  (List.length (execs (outcome_events (handleRequest W cfg w r))) ≤ 1)%nat.
Proof.
  destruct (execs_handleRequest W cfg w r) as [-> | (ext & handler & target & _ & _ & _ & ->)];
    cbn; lia.
Qed.

(** X9.  Whatever a request runs comes from the handler table: the
    command of a configured handler, resolved and checked executable, with
    that handler's arguments substituted for the requested path or for an
    index file under it, the request body on standard input.  With an
    empty table nothing is ever run. *)
Theorem only_configured_commands (W : World) {Wr} `{ResponseWriter Wr}
    (cfg : Config) (w : Wr) (r : Request) (cmd : Cmd) :
  In cmd (execs (outcome_events (handleRequest W cfg w r))) →
  ∃ ext handler target,
    Handlers cfg !! ext = Some handler ∧
    isExecutable W (cmd_Path cmd) = true ∧
    cmd_Path cmd = resolveHandlerCommand W (Command handler) ∧
    cmd_Args cmd = substitute handler target ∧
    cmd_Stdin cmd = Body r ∧
    (target = HomeDir cfg +:+ URL_Path r ∨
     ∃ idx, In idx (DefaultIndexes cfg) ∧
            target = filepath_Join W (HomeDir cfg +:+ URL_Path r) idx) ∧
    Handlers cfg ≠ ∅.
Proof.
  intros Hin.
  destruct (execs_handleRequest W cfg w r)
    as [Hnone | (ext & handler & target & Hlookup & Hexec & Htarget & Hcmds)].
  - rewrite Hnone in Hin. destruct Hin.
  - rewrite Hcmds in Hin. destruct Hin as [<- | []].
    exists ext, handler, target. cbn [handler_cmd cmd_Path cmd_Args cmd_Stdin].
    split_and!; try done.
    intros Hempty. rewrite Hempty, lookup_empty in Hlookup. discriminate.
Qed.

(** The request for [/run.cgi] runs [/bin/run]. *)
Lemma only_configured_commands_witness :
  ∃ ext handler target,
    Handlers Demo.config !! ext = Some handler ∧
    resolveHandlerCommand Demo.world (Command handler) = "/bin/run" ∧
    substitute handler target = ["./public/run.cgi"].
Proof.
  destruct (only_configured_commands Demo.world Demo.config fresh_conn
              (Demo.get "/run.cgi" [])
              (handler_cmd Demo.world (Demo.get "/run.cgi" []) Demo.cgi "./public/run.cgi"))
    as (ext & handler & target & Hlookup & _ & Hpath & Hargs & _).
  - left. reflexivity.
  - exists ext, handler, target. split_and!; [exact Hlookup | by rewrite <- Hpath | by rewrite <- Hargs].
Defined.

(** ** Keys of the handler table that can never match *)

Lemma lower_ascii_not_upper (c : ascii) : is_upper (Strings.lower_ascii c) = false.
Proof. destruct c as [[] [] [] [] [] [] [] []]; reflexivity. Qed.

Lemma ToLower_no_upper (s : string) :
  Forall (fun c => is_upper c = false) (bytes_of (Strings.ToLower s)).
Proof.
  unfold bytes_of, Strings.ToLower.
  induction s as [| c s IH]; cbn [Strings.map_bytes list_ascii_of_string];
    constructor; [apply lower_ascii_not_upper | exact IH].
Qed.

Lemma ext_scan_shape (rev_path : list ascii) (acc : string) :
  Strings.ext_scan rev_path acc = "" ∨
  ∃ rest, Strings.ext_scan rev_path acc = String "." rest.
Proof.
  revert acc. induction rev_path as [| c t IH]; intros acc; [by left |].
  cbn [Strings.ext_scan].
  destruct (Ascii.eqb c "/"); [by left |].
  destruct (Ascii.eqb_spec c ".") as [-> | _]; [right; by eexists | apply IH].
Qed.

(** The key the dispatcher looks up is empty or starts with a dot, and
    holds no upper-case letter. *)
Lemma lookup_key_shape (path : string) :
  let key := Strings.ToLower (Strings.Ext path) in
  (key = "" ∨ ∃ rest, key = String "." rest) ∧
  Forall (fun c => is_upper c = false) (bytes_of key).
Proof.
  cbv zeta. split; [| apply ToLower_no_upper].
  unfold Strings.Ext.
  destruct (ext_scan_shape (rev (list_ascii_of_string path)) "") as [-> | [rest ->]].
  - by left.
  - right. by eexists.
Qed.

Lemma unmatchable_ne (key path : string) :
  unmatchable key → Strings.ToLower (Strings.Ext path) ≠ key.
Proof.
  intros Hdead Heq.
  destruct (lookup_key_shape path) as [Hshape Hlower]. rewrite Heq in Hshape, Hlower.
  destruct Hdead as [Hupper | (c & rest & -> & Hdot)].
  - apply Exists_exists in Hupper as (c & Hin & Hc).
    rewrite Forall_forall in Hlower. specialize (Hlower c Hin). congruence.
  - destruct Hshape as [Hempty | [rest' Hdotted]]; [discriminate |].
    injection Hdotted as Hc _. by apply Hdot.
Qed.

Lemma tryServeIndexWithHandler_delete (W : World) {Wr} `{ResponseWriter Wr}
    (w : Wr) (r : Request) (dirPath : string) (indexes : list string)
    (handlers : gmap string HandlerConfig) (key : string) :
  unmatchable key →
  tryServeIndexWithHandler W w r dirPath indexes (delete key handlers)
  = tryServeIndexWithHandler W w r dirPath indexes handlers.
Proof.
  intros Hdead. induction indexes as [| idx rest IH]; [reflexivity |].
  cbn [tryServeIndexWithHandler].
  rewrite IH, lookup_delete_ne; [reflexivity |].
  intros Heq. by apply (unmatchable_ne key (filepath_Join W dirPath idx)).
Qed.

(** X10.  A handler configured under a key that holds an upper-case
    letter, or under a non-empty key without its leading dot, is dead:
    every request is answered exactly as if the entry were not in the
    table. *)
Theorem unmatchable_handler_is_dead (W : World) {Wr} `{ResponseWriter Wr}
    (cfg : Config) (w : Wr) (r : Request) (key : string) :
  unmatchable key →
  handleRequest W (with_Handlers (delete key (Handlers cfg)) cfg) w r
  = handleRequest W cfg w r.
Proof.
  intros Hdead. unfold handleRequest.
  cbn [with_Handlers HomeDir DefaultIndexes Handlers Pages].
  rewrite (tryServeIndexWithHandler_delete W _ r _ _ _ key Hdead).
  rewrite lookup_delete_ne; [reflexivity |].
  intros Heq. by apply (unmatchable_ne key (HomeDir cfg +:+ URL_Path r)).
Qed.

(** A table that maps [.CGI] and [cgi] besides [.cgi]. *)
Lemma unmatchable_handler_is_dead_witness :
  let upper := with_Handlers (<[".CGI" := Demo.plain]> (Handlers Demo.config)) Demo.config in
  let dotless := with_Handlers (<["cgi" := Demo.plain]> (Handlers Demo.config)) Demo.config in
  handleRequest Demo.world (with_Handlers (delete ".CGI" (Handlers upper)) upper)
    fresh_conn (Demo.get "/run.cgi" [])
  = handleRequest Demo.world upper fresh_conn (Demo.get "/run.cgi" []) ∧
  handleRequest Demo.world (with_Handlers (delete "cgi" (Handlers dotless)) dotless)
    fresh_conn (Demo.get "/run.cgi" [])
  = handleRequest Demo.world dotless fresh_conn (Demo.get "/run.cgi" []).
Proof.
  intros upper dotless. split.
  - apply (unmatchable_handler_is_dead Demo.world upper fresh_conn
             (Demo.get "/run.cgi" []) ".CGI").
    left. apply Exists_cons_tl, Exists_cons_hd. reflexivity.
  - apply (unmatchable_handler_is_dead Demo.world dotless fresh_conn
             (Demo.get "/run.cgi" []) "cgi").
    right. exists "c"%char, "gi". split; [reflexivity | discriminate].
Defined.

(** ** The branches of the dispatcher *)

Lemma tryServeIndexWithHandler_no_log (W : World) {Wr} `{ResponseWriter Wr}
    (s : Sink) (w : Wr) (r : Request) (dirPath : string) (indexes : list string)
    (handlers : gmap string HandlerConfig) :
  log_lines s (snd (tryServeIndexWithHandler W w r dirPath indexes handlers)) = [].
Proof.
  induction indexes as [| idx rest IH]; [reflexivity |].
  cbn [tryServeIndexWithHandler].
  destruct (match os_Stat W (filepath_Join W dirPath idx) with
            | Some stat => negb (fi_IsDir stat)
            | None => false
            end).
  - destruct (handlers !! _) as [handler |]; [| reflexivity].
    pose proof (handleWithExternal_events W w r handler (filepath_Join W dirPath idx) None)
      as Hev.
    destruct (handleWithExternal W w r handler (filepath_Join W dirPath idx) None)
      as [w' evs].
    cbn [snd] in Hev |- *. rewrite Hev.
    destruct (isExecutable W _); reflexivity.
  - destruct (tryServeIndexWithHandler W w r dirPath rest handlers) as [[b w'] evs].
    exact IH.
Qed.

Lemma tryServeIndexWithHandler_found (W : World) {Wr} `{ResponseWriter Wr}
    (w : Wr) (r : Request) (dirPath : string) (indexes : list string)
    (handlers : gmap string HandlerConfig) :
  fst (fst (tryServeIndexWithHandler W w r dirPath indexes handlers))
  = existsb (index_matches W dirPath) indexes.
Proof.
  induction indexes as [| idx rest IH]; [reflexivity |].
  cbn [tryServeIndexWithHandler existsb]. unfold index_matches at 1.
  destruct (match os_Stat W (filepath_Join W dirPath idx) with
            | Some stat => negb (fi_IsDir stat)
            | None => false
            end).
  - destruct (handlers !! _) as [handler |]; [| reflexivity].
    by destruct (handleWithExternal W w r handler (filepath_Join W dirPath idx) None).
  - destruct (tryServeIndexWithHandler W w r dirPath rest handlers) as [[b w'] evs].
    exact IH.
Qed.

Lemma existsb_false_Forall {A} (f : A → bool) (l : list A) :
  existsb f l = false → Forall (fun x => f x = false) l.
Proof.
  induction l as [| x l IH]; [constructor |].
  cbn [existsb]. intros Hnone. apply orb_false_elim in Hnone as [Hx Hl].
  constructor; [exact Hx | by apply IH].
Qed.



(** X11.  A path that cannot be stat'ed: status 404, the body of the
    error page, one error-log line and one access-log line carrying 404
    and the length of the body, no handler-log line and no process. *)
Theorem missing_path (W : World) (cfg : Config) (h : gmap string (list string))
    (r : Request) :
  os_Stat W (HomeDir cfg +:+ URL_Path r) = None →
  let body := error_body W (NotFound (Pages cfg)) "404 page not found" in
  let out := handleRequest W cfg (unsent h) r in
  returned out = true ∧
  conn_status (outcome_writer out) = 404%Z ∧
  c_body (outcome_writer out) = body ∧
  log_lines ErrorSink (outcome_events out)
    = [Method r +:+ " " +:+ URL_Path r +:+ " 404 " +:+ RemoteAddr r] ∧
  log_lines AccessSink (outcome_events out)
    = [access_line W r (mkStatusWriter (outcome_writer out) 404 (Strings.len body))] ∧
  log_lines HandlerSink (outcome_events out) = [] ∧
  execs (outcome_events out) = [].
Proof.
  intros Hstat body out. subst out. unfold handleRequest. rewrite Hstat.
  rewrite (serveErrorPage_wrapped W h 404 404 _ _ eq_refl). fold body.
  cbn [returned outcome_writer outcome_events sw_ResponseWriter].
  destruct (String.eqb (NotFound (Pages cfg)) ""); by split_and!.
Qed.

(** [/nothing] on the demo installation. *)
Lemma missing_path_witness :
  let out := handleRequest Demo.world Demo.config (unsent ∅) (Demo.get "/nothing" []) in
  conn_status (outcome_writer out) = 404%Z ∧
  c_body (outcome_writer out) = "404 page not found" ∧
  log_lines ErrorSink (outcome_events out) = ["GET /nothing 404 10.0.0.1:5000"].
Proof.
  destruct (missing_path Demo.world Demo.config ∅ (Demo.get "/nothing" []) eq_refl)
    as (_ & Hstatus & Hbody & Herror & _).
  exact (conj Hstatus (conj Hbody Herror)).
Defined.



(** X13.  A regular file without a handler: the client gets exactly what
    the file-serving routine writes; the one access-log line carries the
    last status the routine set (200 when it set none) and the bytes that
    reached the body; no error-log line is written whatever that status
    is, and no process is run. *)
Theorem static_file (W : World) (cfg : Config) (h : gmap string (list string))
    (r : Request) (stat : FileInfo) :
  let filePath := HomeDir cfg +:+ URL_Path r in
  os_Stat W filePath = Some stat →
  fi_IsDir stat = false →
  Handlers cfg !! Strings.ToLower (Strings.Ext filePath) = None →
  let ops := http_ServeFile W r filePath in
  let out := handleRequest W cfg (unsent h) r in
  returned out = true ∧
  outcome_writer out = apply_ops ops (unsent h) ∧
  log_lines AccessSink (outcome_events out)
    = [access_line W r
         (mkStatusWriter (outcome_writer out) (last_code 200 ops)
            (Strings.len (c_body (outcome_writer out))))] ∧
  log_lines ErrorSink (outcome_events out) = [] ∧
  log_lines HandlerSink (outcome_events out) = [] ∧
  execs (outcome_events out) = [].
Proof.
  intros filePath Hstat Hdir Hlookup ops out. subst out.
  rewrite (handleRequest_regular_file W cfg (unsent h) r stat Hstat Hdir).
  fold filePath. rewrite Hlookup. fold ops. cbv zeta.
  change (mkStatusWriter (unsent h) 200 0) with (wrapped h).
  cbn [returned outcome_writer outcome_events].
  pose proof (apply_ops_inner ops (wrapped h)) as Hinner.
  pose proof (apply_ops_status ops (wrapped h)) as Hstatus.
  pose proof (StatusWriter_counts_body_aux ops (wrapped h)) as Hbytes.
  cbn [wrapped sw_ResponseWriter Status Bytes unsent c_body] in Hinner, Hstatus, Hbytes.
  change (mkStatusWriter (mkConn h None "") 200 0) with (wrapped h) in *.
  change (mkConn h None "") with (unsent h) in *.
  destruct (apply_ops ops (wrapped h)) as [inner status bytes].
  cbn [sw_ResponseWriter Status Bytes] in *. subst inner status.
  assert (bytes = Strings.len (c_body (apply_ops ops (unsent h)))) as ->.
  { unfold Strings.len in Hbytes at 2. cbn [String.length] in Hbytes. lia. }
  by split_and!.
Qed.

(** [/a.html] on the demo installation. *)
Lemma static_file_witness :
  let out := handleRequest Demo.world Demo.config (unsent ∅) (Demo.get "/a.html" []) in
  c_body (outcome_writer out) = "<p>a</p>" ∧
  log_lines ErrorSink (outcome_events out) = [] ∧
  execs (outcome_events out) = [].
Proof.
  destruct (static_file Demo.world Demo.config ∅ (Demo.get "/a.html" [])
              (mkFileInfo false 420 5 0) eq_refl eq_refl eq_refl)
    as (_ & Hwriter & _ & Herror & _ & Hexecs).
  split_and!; [by rewrite Hwriter | exact Herror | exact Hexecs].
Defined.

(** X14.  A directory in which a configured index filename matches: the
    request returns with exactly one access-log line and, whatever the
    status, no error-log line and no handler-log line. *)
Theorem directory_with_index (W : World) {Wr} `{ResponseWriter Wr}
    (cfg : Config) (w : Wr) (r : Request) (stat : FileInfo) :
  let filePath := HomeDir cfg +:+ URL_Path r in
  os_Stat W filePath = Some stat →
  fi_IsDir stat = true →
  existsb (index_matches W filePath) (DefaultIndexes cfg) = true →
  let out := handleRequest W cfg w r in
  returned out = true ∧
  List.length (log_lines AccessSink (outcome_events out)) = 1%nat ∧
  log_lines ErrorSink (outcome_events out) = [] ∧
  log_lines HandlerSink (outcome_events out) = [].
Proof.
  intros filePath Hstat Hdir Hfound out. subst out.
  unfold handleRequest. fold filePath. rewrite Hstat, Hdir.
  pose proof (tryServeIndexWithHandler_found W (mkStatusWriter w 200 0) r filePath
                (DefaultIndexes cfg) (Handlers cfg)) as Hok.
  pose proof (fun s => tryServeIndexWithHandler_no_log W s (mkStatusWriter w 200 0) r
                         filePath (DefaultIndexes cfg) (Handlers cfg)) as Hlog.
  destruct (tryServeIndexWithHandler W (mkStatusWriter w 200 0) r filePath
              (DefaultIndexes cfg) (Handlers cfg)) as [[ok ww] evs].
  cbn [fst snd] in Hok, Hlog. rewrite Hok, Hfound.
  cbn [returned outcome_events log_lines].
  rewrite !log_lines_app, !Hlog. by split_and!.
Qed.

(** [/app/] on the demo installation, served through [index.cgi]. *)
Lemma directory_with_index_witness :
  let out := handleRequest Demo.world Demo.config fresh_conn (Demo.get "/app/" []) in
  returned out = true ∧
  List.length (log_lines AccessSink (outcome_events out)) = 1%nat.
Proof.
  destruct (directory_with_index Demo.world Demo.config fresh_conn (Demo.get "/app/" [])
              (mkFileInfo true 2147484141 0 0) eq_refl eq_refl eq_refl)
    as (Hret & Haccess & _).
  exact (conj Hret Haccess).
Defined.

(** ** Panics *)

Lemma collect_infos_None_inv (W : World) (files : list DirEntry) :
  collect_infos W files = None → Exists (fun f => de_Info f = None) files.
Proof.
  induction files as [| f rest IH]; [discriminate |].
  cbn [collect_infos].
  destruct (de_Info f) as [info |] eqn:Hinfo; [| intros _; by left].
  destruct (collect_infos W rest); [discriminate |].
  intros _. right. by apply IH.
Qed.

(** X15.  A request panics in one situation only: the path is a directory,
    no index filename matches, the directory can be read, and some entry's
    metadata cannot.  Every other request returns. *)
Theorem panics_only_in_listing (W : World) {Wr} `{ResponseWriter Wr}
    (cfg : Config) (w : Wr) (r : Request) :
  let filePath := HomeDir cfg +:+ URL_Path r in
  returned (handleRequest W cfg w r) = false ↔
  ∃ stat files,
    os_Stat W filePath = Some stat ∧ fi_IsDir stat = true ∧
    Forall (fun idx => index_matches W filePath idx = false) (DefaultIndexes cfg) ∧
    os_ReadDir W filePath = Some files ∧
    Exists (fun f => de_Info f = None) files.
Proof.
  intros filePath. split.
  - unfold handleRequest. fold filePath.
    destruct (os_Stat W filePath) as [stat |] eqn:Hstat.
    + destruct (fi_IsDir stat) eqn:Hdir.
      * pose proof (tryServeIndexWithHandler_found W (mkStatusWriter w 200 0) r filePath
                      (DefaultIndexes cfg) (Handlers cfg)) as Hok.
        destruct (tryServeIndexWithHandler W (mkStatusWriter w 200 0) r filePath
                    (DefaultIndexes cfg) (Handlers cfg)) as [[ok ww] evs].
        cbn [fst] in Hok. destruct ok; [discriminate |].
        unfold RenderDirList.
        destruct (os_ReadDir W filePath) as [files |] eqn:Hread; [| discriminate].
        destruct (collect_infos W files) eqn:Hcollect; [discriminate |].
        intros _. exists stat, files.
        split_and!; try done.
        -- by apply existsb_false_Forall.
        -- by apply (collect_infos_None_inv W).
      * destruct (Handlers cfg !! _) as [handler |]; [| discriminate].
        by destruct (handleWithExternal W (mkStatusWriter w 200 0) r handler filePath
                       (Some HandlerSink)).
    + by destruct (serveErrorPage W (mkStatusWriter w 404 0) 404 (NotFound (Pages cfg))
                     "404 page not found").
  - intros (stat & files & Hstat & Hdir & Hnone & Hread & Hmissing).
    rewrite (handleRequest_listing W cfg w r stat Hstat Hdir Hnone). fold filePath.
    by rewrite (RenderDirList_panics W w r filePath (URL_Path r) files Hread Hmissing).
Qed.

(** X16.  A directory without a matching index file that cannot be read:
    the client gets 500 and a fixed message, the template is not read,
    and nothing is written to any log. *)
Theorem unreadable_directory (W : World) (cfg : Config) (h : gmap string (list string))
    (r : Request) (stat : FileInfo) :
  let filePath := HomeDir cfg +:+ URL_Path r in
  os_Stat W filePath = Some stat →
  fi_IsDir stat = true →
  Forall (fun idx => index_matches W filePath idx = false) (DefaultIndexes cfg) →
  os_ReadDir W filePath = None →
  let out := handleRequest W cfg (unsent h) r in
  returned out = true ∧
  conn_status (outcome_writer out) = 500%Z ∧
  c_body (outcome_writer out) = "Failed to read directory." ∧
  reads (outcome_events out) = [] ∧
  ∀ s, log_lines s (outcome_events out) = [].
Proof.
  intros filePath Hstat Hdir Hnone Hread out. subst out.
  split_and!.
  - rewrite (handleRequest_listing W cfg (unsent h) r stat Hstat Hdir Hnone). fold filePath.
    unfold RenderDirList. by rewrite Hread.
  - rewrite (handleRequest_listing W cfg (unsent h) r stat Hstat Hdir Hnone). fold filePath.
    unfold RenderDirList. by rewrite Hread.
  - rewrite (handleRequest_listing W cfg (unsent h) r stat Hstat Hdir Hnone). fold filePath.
    unfold RenderDirList. by rewrite Hread.
  - rewrite (handleRequest_listing W cfg (unsent h) r stat Hstat Hdir Hnone). fold filePath.
    unfold RenderDirList. rewrite Hread. cbn [then_events outcome_events reads].
    rewrite app_nil_r || idtac.
    induction (DefaultIndexes cfg) as [| idx rest IH]; [reflexivity |].
    apply IH. by inversion Hnone.
  - intros s. by apply (handleRequest_listing_no_log W s cfg (unsent h) r stat).
Qed.

(** [/locked/] on the demo installation. *)
Lemma unreadable_directory_witness :
  let out := handleRequest Demo.world Demo.config (unsent ∅) (Demo.get "/locked/" []) in
  conn_status (outcome_writer out) = 500%Z ∧
  c_body (outcome_writer out) = "Failed to read directory.".
Proof.
  destruct (unreadable_directory Demo.world Demo.config ∅ (Demo.get "/locked/" [])
              (mkFileInfo true 2147484141 0 0))
    as (_ & Hstatus & Hbody & _).
  - reflexivity.
  - reflexivity.
  - repeat constructor.
  - reflexivity.
  - exact (conj Hstatus Hbody).
Defined.

(** ** The configuration served with *)

Lemma or_else_nonempty (value fallback : string) :
  fallback ≠ "" → or_else value fallback ≠ "".
Proof.
  intros Hfallback. unfold or_else.
  destruct (String.eqb_spec value "") as [-> | Hvalue]; done.
Qed.

Lemma or_else_idem (value fallback : string) :
  or_else value (or_else value fallback) = or_else value fallback.
Proof. unfold or_else. by destruct (String.eqb value ""). Qed.



(** X18.  Whatever the file and the flags say, the server starts with a
    non-empty root directory, port, pair of error pages, list of index
    filenames and three log paths. *)
Theorem startup_config_complete (fileCfg : option Config) (homeDirFlag portFlag : string) :
  let cfg := startupConfig fileCfg homeDirFlag portFlag in
  HomeDir cfg ≠ "" ∧ Port cfg ≠ "" ∧
  NotFound (Pages cfg) ≠ "" ∧ Internal (Pages cfg) ≠ "" ∧
  DefaultIndexes cfg ≠ [] ∧
  accessLogPath cfg ≠ "" ∧ errorLogPath cfg ≠ "" ∧ handlerLogPath cfg ≠ "" ∧
  listenAddr cfg ≠ ":".
Proof.
  cbv zeta.
  unfold startupConfig, applyFlags, accessLogPath, errorLogPath, handlerLogPath, listenAddr.
  cbn [HomeDir Port Pages DefaultIndexes Handlers AccessLog ErrorLog HandlerLog].
  assert (∀ value fallback, fallback ≠ "" → ":" +:+ or_else value fallback ≠ ":") as Haddr.
  { intros value fallback Hfallback Heq.
    apply (or_else_nonempty value fallback Hfallback). by injection Heq. }
  destruct fileCfg as [f |]; cbn [mergeFileConfig defaultConfig HomeDir Port Pages
    DefaultIndexes Handlers AccessLog ErrorLog HandlerLog NotFound Internal].
  - split_and!; try (apply or_else_nonempty; (apply or_else_nonempty || idtac); done).
    + by destruct (DefaultIndexes f).
    + apply Haddr. by apply or_else_nonempty.
  - split_and!; try (apply or_else_nonempty; done); try done.
    by apply Haddr.
Qed.

(** X19.  Reading the same file twice changes nothing more, and a file
    that sets no field leaves the configuration as it was. *)
Theorem mergeFileConfig_idempotent (cfg fileCfg : Config) :
  mergeFileConfig (mergeFileConfig cfg fileCfg) fileCfg = mergeFileConfig cfg fileCfg ∧
  mergeFileConfig cfg (mkConfig "" "" (mkErrorPages "" "") [] ∅ "" "" "") = cfg.
Proof.
  split.
  - unfold mergeFileConfig.
    cbn [HomeDir Port Pages NotFound Internal DefaultIndexes Handlers AccessLog ErrorLog
           HandlerLog].
    rewrite !or_else_idem.
    f_equal.
    + by destruct (0 <? List.length (DefaultIndexes fileCfg))%nat.
    + by destruct (0 <? size (Handlers fileCfg))%nat.
  - destruct cfg as [home port [notFound internal] indexes handlers access error handler].
    reflexivity.
Qed.

(** ** tryServeIndex *)

(** X20.  When no index file's extension has a handler, and so with an
    empty handler table, the resolver with handlers does exactly what the
    plain one does: same answer, same writes, same probes. *)
Theorem tryServeIndexWithHandler_without_handlers
    (W : World) {Wr} `{ResponseWriter Wr} (w : Wr) (r : Request) (dirPath : string)
    (indexes : list string) (handlers : gmap string HandlerConfig) :
  (∀ idx, In idx indexes →
     handlers !! Strings.ToLower (Strings.Ext (filepath_Join W dirPath idx)) = None) →
  tryServeIndexWithHandler W w r dirPath indexes handlers
  = tryServeIndex W w r dirPath indexes.
Proof.
  induction indexes as [| idx rest IH]; intros Hnone; [reflexivity |].
  cbn [tryServeIndexWithHandler tryServeIndex].
  rewrite (Hnone idx) by (by left).
  rewrite IH; [reflexivity |].
  intros idx' Hin. apply Hnone. by right.
Qed.

(** With an empty table, on [./public/app/]. *)
Lemma tryServeIndexWithHandler_without_handlers_witness :
  tryServeIndexWithHandler Demo.world fresh_conn (Demo.get "/app/" []) "./public/app/"
    ["index.html"; "index.cgi"] ∅
  = tryServeIndex Demo.world fresh_conn (Demo.get "/app/" []) "./public/app/"
      ["index.html"; "index.cgi"].
Proof.
  apply (tryServeIndexWithHandler_without_handlers Demo.world fresh_conn
           (Demo.get "/app/" []) "./public/app/" ["index.html"; "index.cgi"] ∅).
  intros idx _. apply lookup_empty.
Defined.

(** ** The older revision, in general *)

Lemma Legacy_tryServeIndexWithHandler_none (W : World) {Wr} `{ResponseWriter Wr}
    (w : Wr) (r : Request) (dirPath : string) (indexes : list string)
    (handlers : gmap string HandlerConfig) :
  Forall (fun idx => index_matches W dirPath idx = false) indexes →
  Legacy.tryServeIndexWithHandler W w r dirPath indexes handlers
  = (false, w, map (probe W dirPath) indexes).
Proof.
  induction 1 as [| idx rest Hidx Hrest IH]; [reflexivity |].
  cbn [Legacy.tryServeIndexWithHandler map].
  unfold index_matches in Hidx. rewrite Hidx, IH. reflexivity.
Qed.

(** X21.  main.go, once the check has passed: the child gets the parent
    environment and nothing else; when it exits 0 the body is its standard
    output, the status 200 and the headers are left as they were; when it
    fails the status is 500 and the body is [Handler error: ], the error
    and then the standard output. *)
Theorem legacy_invocation
    (W : World) (h : gmap string (list string)) (r : Request)
    (handler : HandlerConfig) (filePath : string) (logger : option Sink) :
  isExecutable W (resolveHandlerCommand W (Command handler)) = true →
  let child := exec_Run W (legacy_cmd W r handler filePath) in
  let res := Legacy.handleWithExternal W (wrapped h) r handler filePath logger in
  let conn := sw_ResponseWriter (fst res) in
  execs (snd res) = [legacy_cmd W r handler filePath] ∧
  match proc_err child with
  | None =>
      conn_status conn = 200%Z ∧ c_body conn = pr_stdout child ∧
      conn_sent_header conn = h ∧ Status (fst res) = 200%Z
  | Some msg =>
      conn_status conn = 500%Z ∧
      c_body conn = "Handler error: " +:+ msg +:+ pr_stdout child ∧
      Status (fst res) = 500%Z
  end.
Proof.
  intros Hexec child res conn. subst conn res.
  unfold Legacy.handleWithExternal. rewrite Hexec. cbn [negb].
  fold (legacy_cmd W r handler filePath). fold child.
  destruct (proc_err child) as [msg |].
  - cbn [fst snd execs]. rewrite execs_log_to.
    by split_and!.
  - cbn [fst snd execs]. rewrite execs_log_to. by split_and!.
Qed.

(** [/bin/run] on the demo installation. *)
Lemma legacy_invocation_witness :
  let res := Legacy.handleWithExternal Demo.world (wrapped ∅) (Demo.get "/run.cgi" [])
               Demo.cgi "./public/run.cgi" None in
  map cmd_Env (execs (snd res)) = [["PATH=/bin"]] ∧
  c_body (sw_ResponseWriter (fst res)) = "hello".
Proof.
  destruct (legacy_invocation Demo.world ∅ (Demo.get "/run.cgi" []) Demo.cgi
              "./public/run.cgi" None eq_refl) as (Hexecs & Hres).
  split.
  - by rewrite Hexecs.
  - exact (proj1 (proj2 Hres)).
Defined.

(** X22.  main.go, for a directory in which no index filename matches:
    the 404 page, with one error-log line and one access-log line that
    carry 404. *)
Theorem legacy_directory_without_index_404
    (W : World) (cfg : Config) (h : gmap string (list string)) (r : Request)
    (stat : FileInfo) :
  let filePath := HomeDir cfg +:+ URL_Path r in
  os_Stat W filePath = Some stat →
  fi_IsDir stat = true →
  Forall (fun idx => index_matches W filePath idx = false) (DefaultIndexes cfg) →
  let body := error_body W (NotFound (Pages cfg)) "404 page not found" in
  let out := Legacy.handleRequest W cfg (unsent h) r in
  conn_status (outcome_writer out) = 404%Z ∧
  c_body (outcome_writer out) = body ∧
  log_lines ErrorSink (outcome_events out)
    = [Method r +:+ " " +:+ URL_Path r +:+ " 404 " +:+ RemoteAddr r] ∧
  log_lines AccessSink (outcome_events out)
    = [access_line W r (mkStatusWriter (outcome_writer out) 404 (Strings.len body))].
Proof.
  intros filePath Hstat Hdir Hnone body out. subst out.
  unfold Legacy.handleRequest. fold filePath. rewrite Hstat, Hdir.
  rewrite (Legacy_tryServeIndexWithHandler_none W _ r filePath _ _ Hnone).
  cbn [sw_ResponseWriter Bytes].
  rewrite (serveErrorPage_wrapped W h 404 404 _ _ eq_refl). fold body.
  cbn [outcome_writer outcome_events sw_ResponseWriter log_lines].
  rewrite !log_lines_app, !log_lines_probes.
  destruct (String.eqb (NotFound (Pages cfg)) ""); by split_and!.
Qed.

(** [/sub/] on the demo installation. *)
Lemma legacy_directory_without_index_404_witness :
  let out := Legacy.handleRequest Demo.world Demo.config (unsent ∅) (Demo.get "/sub/" []) in
  conn_status (outcome_writer out) = 404%Z ∧
  log_lines ErrorSink (outcome_events out) = ["GET /sub/ 404 10.0.0.1:5000"].
Proof.
  destruct (legacy_directory_without_index_404 Demo.world Demo.config ∅
              (Demo.get "/sub/" []) (mkFileInfo true 2147484141 0 0))
    as (Hstatus & _ & Herror & _).
  - reflexivity.
  - reflexivity.
  - repeat constructor.
  - exact (conj Hstatus Herror).
Defined.

(** The two revisions agree on a command that fails the check:
    same response, same events. *)
Theorem legacy_agrees_on_failed_check
    (W : World) {Wr} `{ResponseWriter Wr} (w : Wr) (r : Request)
    (handler : HandlerConfig) (filePath : string) (logger : option Sink) :
  isExecutable W (resolveHandlerCommand W (Command handler)) = false →
  Legacy.handleWithExternal W w r handler filePath logger
  = handleWithExternal W w r handler filePath logger.
Proof.
  intros Hexec. unfold Legacy.handleWithExternal, handleWithExternal.
  by rewrite Hexec.
Qed.

(** [/bin/plain] has no execute bit. *)
Lemma legacy_agrees_on_failed_check_witness :
  Legacy.handleWithExternal Demo.world fresh_conn (Demo.get "/run.cgi" []) Demo.plain
    "./public/run.cgi" (Some HandlerSink)
  = handleWithExternal Demo.world fresh_conn (Demo.get "/run.cgi" []) Demo.plain
      "./public/run.cgi" (Some HandlerSink).
Proof.
  apply (legacy_agrees_on_failed_check Demo.world fresh_conn (Demo.get "/run.cgi" [])
           Demo.plain "./public/run.cgi" (Some HandlerSink)).
  reflexivity.
Defined.

(** ** The access-log line *)

Lemma append_assoc_string (a b c : string) : (a +:+ b) +:+ c = a +:+ (b +:+ c).
Proof.
  induction a as [| x a IH]; [reflexivity |].
  change ((String x a +:+ b) +:+ c) with (String x ((a +:+ b) +:+ c)).
  by rewrite IH.
Qed.

Lemma list_ascii_of_string_app (a b : string) :
  list_ascii_of_string (a +:+ b) = list_ascii_of_string a ++ list_ascii_of_string b.
Proof.
  induction a as [| c a IH]; [reflexivity |].
  change (String c a +:+ b) with (String c (a +:+ b)).
  cbn [list_ascii_of_string app]. by rewrite IH.
Qed.

Lemma drop_to_colon_skip (l1 l2 : list ascii) :
  ":"%char ∉ l1 → Strings.drop_to_colon (l1 ++ ":"%char :: l2) = Some l2.
Proof.
  induction l1 as [| c l1 IH]; intros Hcolon; [reflexivity |].
  apply not_elem_of_cons in Hcolon as [Hne Hcolon].
  cbn [app Strings.drop_to_colon].
  destruct (Ascii.eqb_spec c ":") as [-> | _]; [done | by apply IH].
Qed.

Lemma drop_to_colon_none (l : list ascii) :
  ":"%char ∉ l → Strings.drop_to_colon l = None.
Proof.
  induction l as [| c l IH]; intros Hcolon; [reflexivity |].
  apply not_elem_of_cons in Hcolon as [Hne Hcolon].
  cbn [Strings.drop_to_colon].
  destruct (Ascii.eqb_spec c ":") as [-> | _]; [done | by apply IH].
Qed.

Lemma before_last_colon_join (host port : string) :
  ":"%char ∉ bytes_of port →
  Strings.before_last_colon (host +:+ ":" +:+ port) = host.
Proof.
  intros Hcolon. unfold Strings.before_last_colon, bytes_of in *.
  rewrite list_ascii_of_string_app.
  change (list_ascii_of_string (":" +:+ port))
    with (":"%char :: list_ascii_of_string port).
  rewrite rev_app_distr. cbn [rev]. rewrite <- app_assoc. cbn [app].
  rewrite drop_to_colon_skip.
  - by rewrite rev_involutive, string_of_list_ascii_of_string.
  - intros Hin. apply Hcolon. apply list_elem_of_In. apply list_elem_of_In in Hin.
    by apply in_rev.
Qed.

Lemma before_last_colon_whole (addr : string) :
  ":"%char ∉ bytes_of addr → Strings.before_last_colon addr = addr.
Proof.
  intros Hcolon. unfold Strings.before_last_colon, bytes_of in *.
  rewrite drop_to_colon_none; [reflexivity |].
  intros Hin. apply Hcolon. apply list_elem_of_In. apply list_elem_of_In in Hin.
  by apply in_rev.
Qed.

(** X23.  The access-log line.  For a remote address [host:port] the line
    is the host without the port, two dashes, the bracketed time, the
    quoted request line, the status and byte count of the wrapper, and
    the quoted referer and user agent, each a dash when empty.  The host
    is everything before the last colon, so the brackets of an IPv6
    address stay; an address without a colon is used whole. *)
Theorem access_line_format (W : World) {Wr} (r : Request) (ww : StatusWriter Wr)
    (host port : string) :
  RemoteAddr r = host +:+ ":" +:+ port →
  ":"%char ∉ bytes_of port →
  access_line W r ww =
    host +:+ " - - [" +:+ time_Now W "02/Jan/2006:15:04:05 -0700" +:+ "] "
    +:+ dq +:+ Method r +:+ " " +:+ url_RequestURI W r +:+ " " +:+ Proto r +:+ dq
    +:+ " " +:+ Strings.Itoa (Status ww) +:+ " " +:+ Strings.Itoa (Bytes ww) +:+ " "
    +:+ dq +:+ (if String.eqb (Header_Get (Header r) "Referer") "" then "-"
                else Header_Get (Header r) "Referer") +:+ dq +:+ " "
    +:+ dq +:+ (if String.eqb (Header_Get (Header r) "User-Agent") "" then "-"
                else Header_Get (Header r) "User-Agent") +:+ dq.
Proof.
  intros Haddr Hcolon. unfold access_line, dash_if_empty. cbv zeta.
  rewrite Haddr, (before_last_colon_join host port Hcolon).
  by rewrite !append_assoc_string.
Qed.

(** An IPv6 client. *)
Lemma access_line_format_witness :
  access_line Demo.world
    (mkRequest "GET" "/a.html" "" "/a.html" "HTTP/1.1" "localhost:80" "[::1]:5000" [] "")
    (mkStatusWriter fresh_conn 200 8)
  = "[::1] - - [now] " +:+ dq +:+ "GET /a.html HTTP/1.1" +:+ dq +:+ " 200 8 "
    +:+ dq +:+ "-" +:+ dq +:+ " " +:+ dq +:+ "-" +:+ dq.
Proof.
  rewrite (access_line_format Demo.world
             (mkRequest "GET" "/a.html" "" "/a.html" "HTTP/1.1" "localhost:80"
                "[::1]:5000" [] "")
             (mkStatusWriter fresh_conn 200 8) "[::1]" "5000" eq_refl).
  - reflexivity.
  - intros Hin. repeat (apply elem_of_cons in Hin as [Hin | Hin]; [discriminate Hin |]).
    inversion Hin.
Defined.

(** ** The names of the header variables *)

Lemma header_byte_shape (c : ascii) :
  let c' := Strings.upper_ascii (if Ascii.eqb c "-" then "_"%char else c) in
  c' ≠ "-"%char ∧ is_lower c' = false.
Proof. destruct c as [[] [] [] [] [] [] [] []]; split; (reflexivity || discriminate). Qed.

(** X24.  The name under which a header reaches the child has as many
    bytes as the header name, none of them a hyphen or a lower-case
    letter; names that differ only in case or in hyphen against
    underscore get the same variable. *)
Theorem header_variable_name (name : string) :
  let key := Strings.ToUpper (Strings.ReplaceAll name "-" "_") in
  String.length key = String.length name ∧
  Forall (fun c => c ≠ "-"%char ∧ is_lower c = false) (bytes_of key) ∧
  ∀ other, Strings.ToUpper (Strings.ReplaceAll other "-" "_") = key →
    ∀ values, header_var (other, values) = header_var (name, values).
Proof.
  cbv zeta. split_and!.
  - rewrite ReplaceAll_hyphen. unfold Strings.ToUpper. rewrite map_bytes_compose.
    induction name as [| c name IH]; [reflexivity |].
    cbn [Strings.map_bytes String.length]. by rewrite IH.
  - rewrite ReplaceAll_hyphen. unfold Strings.ToUpper. rewrite map_bytes_compose.
    unfold bytes_of. induction name as [| c name IH]; [constructor |].
    cbn [Strings.map_bytes list_ascii_of_string].
    constructor; [apply header_byte_shape | exact IH].
  - intros other Hsame values. unfold header_var. by rewrite Hsame.
Qed.

(** Two spellings of one header. *)
Lemma header_variable_name_witness :
  header_var ("x_request-ID", ["7"]) = header_var ("X-Request-Id", ["7"]).
Proof.
  destruct (header_variable_name "X-Request-Id") as (_ & _ & Hsame).
  apply (Hsame "x_request-ID"). reflexivity.
Defined.

(** ** Two more runs *)

(** [/bin/run] is given the path of the script, once. *)
Lemma substitute_arguments_witness :
  substitute Demo.cgi "./public/run.cgi" !! 0%nat = Some "./public/run.cgi".
Proof.
  destruct (substitute_arguments Demo.cgi "./public/run.cgi") as (_ & _ & Hplaceholder).
  apply (Hplaceholder 0%nat). reflexivity.
Defined.

(** A redirect: headers, then the status, then nothing. *)
Lemma StatusWriter_last_status_witness :
  Status (apply_ops [OpSetHeader "Location" "/sub/"; OpWriteHeader 301] (wrapped ∅)) = 301%Z.
Proof.
  destruct (StatusWriter_last_status
              [OpSetHeader "Location" "/sub/"; OpWriteHeader 301] (wrapped ∅))
    as (_ & Hlast & _).
  apply (Hlast [OpSetHeader "Location" "/sub/"] 301%Z []); reflexivity.
Defined.
